(** * Verification of the client data-access layer of movie-database-app

    Shallow embedding of the TypeScript sources:
    - [src/services/movie-service.ts] (the shared axios client [apiClient],
      its request and response interceptors, [logout], [MovieService]),
    - [src/contexts/auth-context.tsx] ([authReducer], [register], [logoutUser]),
    - [src/services/actor-service.ts], [src/services/director-service.ts]
      and the people and genre services ([src/unnamed/part_000], [part_001]),
    - [src/services/types.ts] (zod schemas),
    - [src/app/(tabs)/home.tsx] (infinite-scroll accumulation).

    JavaScript numbers are modelled as [Z]: every value used below is an
    integer, and no claim depends on floating-point behaviour. *)

From Stdlib Require Import ZArith List String Ascii Bool Lia.
From stdpp Require Import base gmap strings.

Set Warnings "-register-all".
Open Scope Z_scope.

(* ------------------------------------------------------------------ *)
(** ** JSON values and JavaScript truthiness *)

Inductive json : Type :=
| JNull
| JBool (b : bool)
| JNum (n : Z)
| JStr (s : string)
| JArr (xs : list json)
| JObj (kvs : list (string * json)).

(** Property read [o.k]; [None] is [undefined]. *)
Fixpoint assoc_get {A} (k : string) (kvs : list (string * A)) : option A :=
  match kvs with
  | [] => None
  | (k', v) :: rest => if String.eqb k k' then Some v else assoc_get k rest
  end.

Definition json_get (k : string) (v : json) : option json :=
  match v with
  | JObj kvs => assoc_get k kvs
  | _ => None
  end.

Definition string_truthy (s : string) : bool :=
  negb (String.eqb s "").

(** Truthiness of a possibly-undefined JSON value ([if (x)], [x || y]). *)
Definition js_truthy (v : option json) : bool :=
  match v with
  | None | Some JNull => false
  | Some (JBool b) => b
  | Some (JNum n) => negb (Z.eqb n 0)
  | Some (JStr s) => string_truthy s
  | Some (JArr _) | Some (JObj _) => true
  end.

(** [a || b] on JSON values. *)
Definition js_or (a : option json) (b : json) : json :=
  match a with
  | Some x => if js_truthy a then x else b
  | None => b
  end.

(* ------------------------------------------------------------------ *)
(** ** Constants ([src/constants/api.ts], [auth-context.tsx]) *)

Definition TOKEN_STORAGE_KEY : string := "movie_database_auth_token".
Definition USER_DATA_KEY : string := "user_data".
Definition API_VERSION : string := "v1".
Definition API_MOVIES : string := "/api/v1/movies".
Definition API_REGISTER : string := "/api/v1/auth/register".
Definition API_LOGIN : string := "/api/v1/auth/login".

(* ------------------------------------------------------------------ *)
(** ** Auth session state ([src/contexts/auth-context.tsx] 10-89) *)

(** [User]: the runtime object built by [login] / [register]; its fields
    hold whatever the server sent ([response.data.username || username]). *)
Record User : Type := {
  username : json;
  role : json
}.

Record AuthState : Type := {
  user : option User;            (** [User | null] *)
  isAuthenticated : bool;
  isLoading : bool;
  error : option json            (** [string | null] *)
}.

Inductive AuthAction : Type :=
| LOGIN_REQUEST
| LOGIN_SUCCESS (payload : User)
| LOGIN_FAILURE (payload : json)
| REGISTER_REQUEST
| REGISTER_SUCCESS (payload : User)
| REGISTER_FAILURE (payload : json)
| LOGOUT
| CLEAR_ERROR.

Definition initialState : AuthState :=
  {| user := None; isAuthenticated := false; isLoading := true; error := None |}.

Definition authReducer (state : AuthState) (action : AuthAction) : AuthState :=
  match action with
  | LOGIN_REQUEST | REGISTER_REQUEST =>
      {| user := user state; isAuthenticated := isAuthenticated state;
         isLoading := true; error := None |}
  | LOGIN_SUCCESS u | REGISTER_SUCCESS u =>
      {| user := Some u; isAuthenticated := true; isLoading := false; error := None |}
  | LOGIN_FAILURE msg | REGISTER_FAILURE msg =>
      {| user := None; isAuthenticated := false; isLoading := false; error := Some msg |}
  | LOGOUT =>
      {| user := None; isAuthenticated := false; isLoading := false; error := None |}
  | CLEAR_ERROR =>
      {| user := user state; isAuthenticated := isAuthenticated state;
         isLoading := isLoading state; error := None |}
  end.

(* ------------------------------------------------------------------ *)
(** ** The world: AsyncStorage, NetInfo and the remote server *)

Record request_config : Type := {
  rc_method : string;
  rc_url : string;
  rc_headers : list (string * string);
  rc_params : list (string * string);
  rc_data : option json
}.

Record response : Type := {
  status : Z;
  data : json
}.

(** Errors a promise of this layer rejects with: a plain [new Error(msg)],
    an [AxiosError] carrying the request and, when the server answered,
    its response, or the [ZodError] thrown by [schema.parse(input)]. *)
Inductive js_error : Type :=
| JsError (message : string)
| AxiosError (config : request_config) (resp : option response)
| ZodError (input : json).

Record world : Type := {
  w_platform : string;                  (** [Platform.OS] *)
  w_isConnected : option bool;           (** [NetInfo.fetch().isConnected] *)
  w_storage : gmap string string;        (** AsyncStorage *)
  w_server : request_config -> option response;  (** [None]: no answer *)
  w_sent : list request_config;          (** requests put on the wire, newest first *)
  w_auth : AuthState                     (** the [useReducer] state of [AuthProvider] *)
}.

Definition set_storage (w : world) (s : gmap string string) : world :=
  {| w_platform := w_platform w; w_isConnected := w_isConnected w;
     w_storage := s; w_server := w_server w; w_sent := w_sent w;
     w_auth := w_auth w |}.

Definition set_sent (w : world) (l : list request_config) : world :=
  {| w_platform := w_platform w; w_isConnected := w_isConnected w;
     w_storage := w_storage w; w_server := w_server w; w_sent := l;
     w_auth := w_auth w |}.

Definition set_auth (w : world) (a : AuthState) : world :=
  {| w_platform := w_platform w; w_isConnected := w_isConnected w;
     w_storage := w_storage w; w_server := w_server w; w_sent := w_sent w;
     w_auth := a |}.

(* ------------------------------------------------------------------ *)
(** ** A promise monad: state passing over the world, fulfil or reject *)

Inductive settled (A : Type) : Type :=
| Fulfilled (v : A)
| Rejected (e : js_error).
Arguments Fulfilled {A} v.
Arguments Rejected {A} e.

Definition promise (A : Type) : Type := world -> world * settled A.

Definition resolve {A} (v : A) : promise A := fun w => (w, Fulfilled v).
Definition reject {A} (e : js_error) : promise A := fun w => (w, Rejected e).

(** [await p] followed by [k]: a rejection skips [k]. *)
Definition bind {A B} (p : promise A) (k : A -> promise B) : promise B :=
  fun w => match p w with
           | (w', Fulfilled v) => k v w'
           | (w', Rejected e) => (w', Rejected e)
           end.

(** [p.then(onFulfilled, onRejected)]. *)
Definition then_ {A B} (p : promise A) (onF : A -> promise B)
    (onR : js_error -> promise B) : promise B :=
  fun w => match p w with
           | (w', Fulfilled v) => onF v w'
           | (w', Rejected e) => onR e w'
           end.

Notation "'let*' x := p 'in' k" := (bind p (fun x => k))
  (at level 200, x name, p at level 100, k at level 200).
Notation "'do*' p 'in' k" := (bind p (fun _ => k))
  (at level 200, p at level 100, k at level 200).

(** AsyncStorage and NetInfo. *)
Definition AsyncStorage_getItem (k : string) : promise (option string) :=
  fun w => (w, Fulfilled (w_storage w !! k)).

Definition AsyncStorage_setItem (k v : string) : promise unit :=
  fun w => (set_storage w (<[k := v]> (w_storage w)), Fulfilled tt).

Definition AsyncStorage_removeItem (k : string) : promise unit :=
  fun w => (set_storage w (delete k (w_storage w)), Fulfilled tt).

(** [dispatch(action)] of [useReducer]. *)
Definition dispatch (a : AuthAction) : promise unit :=
  fun w => (set_auth w (authReducer (w_auth w) a), Fulfilled tt).

Definition NetInfo_fetch : promise (option bool) :=
  fun w => (w, Fulfilled (w_isConnected w)).

(* ------------------------------------------------------------------ *)
(** ** The shared axios client ([apiClient], movie-service.ts 205-273) *)

(** Header maps: assignment [config.headers.K = v] replaces an existing
    entry or adds a new one. *)
Fixpoint set_header (k v : string) (hs : list (string * string))
    : list (string * string) :=
  match hs with
  | [] => [(k, v)]
  | (k', v') :: rest =>
      if String.eqb k k' then (k, v) :: rest else (k', v') :: set_header k v rest
  end.

Definition with_headers (c : request_config) (hs : list (string * string))
    : request_config :=
  {| rc_method := rc_method c; rc_url := rc_url c; rc_headers := hs;
     rc_params := rc_params c; rc_data := rc_data c |}.

(** [axios.create({ headers: {...} })] defaults merged into the config of
    [apiClient.get(url, { params })] and its siblings; no caller passes
    headers of its own. *)
Definition default_headers (platform : string) : list (string * string) :=
  [("Content-Type", "application/json"); ("Accept", "application/json");
   ("Platform", platform)].

Definition mk_config (platform method url : string)
    (params : list (string * string)) (body : option json) : request_config :=
  {| rc_method := method; rc_url := url; rc_headers := default_headers platform;
     rc_params := params; rc_data := body |}.

(** Request interceptor, fulfilled handler (lines 231-244). *)
Definition request_interceptor (config : request_config) : promise request_config :=
  let* isConnected := NetInfo_fetch in
  if negb (match isConnected with Some b => b | None => false end)
  then reject (JsError "No internet connection")
  else
    let* token := AsyncStorage_getItem TOKEN_STORAGE_KEY in
    match token with
    | Some t =>
        if string_truthy t
        then resolve (with_headers config
                        (set_header "Authorization" ("Bearer " ++ t)%string
                           (rc_headers config)))
        else resolve config
    | None => resolve config
    end.

(** Request interceptor, rejected handler (lines 245-247). *)
Definition request_interceptor_error (error : js_error) : promise request_config :=
  reject error.

(** axios' default [validateStatus]. *)
Definition validateStatus (s : Z) : bool := (200 <=? s) && (s <? 300).

(** Removal of a header ([headers.set(k, null)]: a [null] header is not
    sent). *)
Definition remove_header (k : string) (hs : list (string * string))
    : list (string * string) :=
  List.filter (fun kv => negb (String.eqb (fst kv) k)) hs.

(** The request the XHR adapter (the adapter axios picks on React Native)
    puts on the wire: it works on a copy of the config's headers and, when
    there is no body ([requestData === undefined]), drops [Content-Type]
    ([requestHeaders.setContentType(null)]). *)
Definition xhr_request (config : request_config) : request_config :=
  match rc_data config with
  | None => with_headers config (remove_header "Content-Type" (rc_headers config))
  | Some _ => config
  end.

(** [dispatchRequest]: the only place a request goes on the wire. The
    server sees the adapter's request; the [AxiosError] of a failed call
    carries the caller's config, whose headers the adapter did not touch. *)
Definition dispatchRequest (config : request_config) : promise response :=
  fun w =>
    let sent := xhr_request config in
    let w' := set_sent w (sent :: w_sent w) in
    match w_server w sent with
    | Some r =>
        if validateStatus (status r) then (w', Fulfilled r)
        else (w', Rejected (AxiosError config (Some r)))
    | None => (w', Rejected (AxiosError config None))
    end.

(** [logout] helper (lines 268-271). *)
Definition logout : promise unit :=
  AsyncStorage_removeItem TOKEN_STORAGE_KEY.

(** [error.response?.status]. *)
Definition error_status (e : js_error) : option Z :=
  match e with
  | AxiosError _ (Some r) => Some (status r)
  | _ => None
  end.

Definition SESSION_EXPIRED : string := "Session expired. Please login again.".

(** Response interceptor (lines 251-265). *)
Definition response_interceptor (r : response) : promise response := resolve r.

Definition response_interceptor_error (error : js_error) : promise response :=
  if bool_decide (error_status error = Some 401)
  then do* logout in reject (JsError SESSION_EXPIRED)
  else reject error.

(** [Axios.prototype.request] with asynchronous interceptors:
    [Promise.resolve(config).then(reqF, reqR).then(dispatchRequest, undefined)
     .then(resF, resR)]. *)
Definition axios_request (config : request_config) : promise response :=
  then_ (then_ (then_ (resolve config) request_interceptor request_interceptor_error)
               dispatchRequest reject)
        response_interceptor response_interceptor_error.

(** [apiClient.get/post/put/delete(url, body?, { params })]. *)
Definition apiClient_request (method url : string) (params : list (string * string))
    (body : option json) : promise response :=
  fun w => axios_request (mk_config (w_platform w) method url params body) w.

(** The header value the request carries, as the interceptor computes it
    from the stored token. *)
Definition authorization_of (stored : option string) : option string :=
  match stored with
  | Some t => if string_truthy t then Some ("Bearer " ++ t)%string else None
  | None => None
  end.

(* ------------------------------------------------------------------ *)
(** ** [String(x)] and [JSON.stringify(x)] *)

Fixpoint digits_rev (fuel : nat) (n : Z) (acc : string) : string :=
  match fuel with
  | O => acc
  | S f =>
      let acc' := String (ascii_of_nat (48 + Z.to_nat (n mod 10))) acc in
      if Z.eqb (n / 10) 0 then acc' else digits_rev f (n / 10) acc'
  end.

(** Decimal rendering of an integer ([String(n)] for an integral number). *)
Definition Z_to_string (n : Z) : string :=
  let fuel := S (Z.to_nat (Z.log2 (Z.abs n))) in
  if n <? 0 then String "-" (digits_rev fuel (- n) "")
  else digits_rev fuel n "".

Definition quote_char : ascii := ascii_of_nat 34.
Definition backslash_char : ascii := ascii_of_nat 92.

(** Lower-case hexadecimal digit of the [\u00xx] escapes. *)
Definition hex_digit_lower (n : nat) : ascii :=
  if (n <? 10)%nat then ascii_of_nat (48 + n) else ascii_of_nat (87 + n).

(** [QuoteJSONString] (ECMA-262, JSON.stringify) on UTF-8 strings: quote
    and backslash are escaped with a backslash, the code units 8, 9, 10, 12
    and 13 as [\b \t \n \f \r], every other code unit below 0x20 as
    [\u00xx] in lower-case hexadecimal, and every other byte is copied (the
    bytes of multi-byte UTF-8 characters included: [JSON.stringify] leaves
    non-ASCII characters unescaped). *)
Fixpoint json_escape (s : string) : string :=
  match s with
  | EmptyString => EmptyString
  | String c rest =>
      let n := nat_of_ascii c in
      if Ascii.eqb c quote_char || Ascii.eqb c backslash_char
      then String backslash_char (String c (json_escape rest))
      else if (n =? 8)%nat then String backslash_char (String "b" (json_escape rest))
      else if (n =? 9)%nat then String backslash_char (String "t" (json_escape rest))
      else if (n =? 10)%nat then String backslash_char (String "n" (json_escape rest))
      else if (n =? 12)%nat then String backslash_char (String "f" (json_escape rest))
      else if (n =? 13)%nat then String backslash_char (String "r" (json_escape rest))
      else if (n <? 32)%nat
      then String backslash_char (String "u" (String "0" (String "0"
             (String (hex_digit_lower (n / 16))
                (String (hex_digit_lower (n mod 16)) (json_escape rest))))))
      else String c (json_escape rest)
  end.

Definition json_quote (s : string) : string :=
  String quote_char (json_escape s ++ String quote_char EmptyString)%string.

Fixpoint json_stringify (v : json) : string :=
  match v with
  | JNull => "null"
  | JBool true => "true"
  | JBool false => "false"
  | JNum n => Z_to_string n
  | JStr s => json_quote s
  | JArr xs =>
      ("[" ++ String.concat "," (List.map json_stringify xs) ++ "]")%string
  | JObj kvs =>
      ("{" ++ String.concat ","
        (List.map (fun '(k, x) => json_quote k ++ ":" ++ json_stringify x) kvs)
      ++ "}")%string
  end.

(** [String(v)]. *)
Fixpoint js_String (v : json) : string :=
  match v with
  | JNull => "null"
  | JBool true => "true"
  | JBool false => "false"
  | JNum n => Z_to_string n
  | JStr s => s
  | JArr xs =>
      String.concat "," (List.map (fun x => match x with JNull => "" | _ => js_String x end) xs)
  | JObj _ => "[object Object]"
  end.

Definition user_to_json (u : User) : json :=
  JObj [("username", username u); ("role", role u)].

(* ------------------------------------------------------------------ *)
(** ** [register] and [logoutUser] (auth-context.tsx 174-233) *)

(** [try { ... } catch (e) { ... }]. *)
Definition catch_ {A} (p : promise A) (h : js_error -> promise A) : promise A :=
  then_ p resolve h.

(** [error.response?.data?.message]. *)
Definition error_message (e : js_error) : option json :=
  match e with
  | AxiosError _ (Some r) => json_get "message" (data r)
  | _ => None
  end.

(** Property read [v.k] on a response body: reading a property of [null]
    throws a [TypeError]; on any other value it is [json_get] ([undefined]
    on numbers, strings, booleans and arrays for the keys read here). *)
Definition get_prop (v : json) (k : string) : promise (option json) :=
  match v with
  | JNull => reject (JsError "TypeError")
  | _ => resolve (json_get k v)
  end.

Section Register.

(** [AsyncStorage.setItem(key, value)] with a [value] that is not a
    string (a truthy [token] of another JSON type, passed as it is): the
    library only warns on the JavaScript side and the native module's
    handling differs by platform, so its effect is left open. *)
Variable AsyncStorage_setItem_nonstring : string -> json -> promise unit.

(** [AsyncStorage.setItem(TOKEN_STORAGE_KEY, response.data.token)]. *)
Definition setItem_token (token : json) : promise unit :=
  match token with
  | JStr t => AsyncStorage_setItem TOKEN_STORAGE_KEY t
  | _ => AsyncStorage_setItem_nonstring TOKEN_STORAGE_KEY token
  end.

(** [register]; the [console.log] and [console.error] calls are output
    only. A [null] body makes [response.data.username] throw, and the
    catch block handles that [TypeError] like any other error. *)
Definition register (username0 email password : string) : promise bool :=
  do* dispatch REGISTER_REQUEST in
  catch_
    (let registerData :=
       JObj [("username", JStr username0); ("email", JStr email);
             ("password", JStr password); ("confirmPassword", JStr password)] in
     let* response := apiClient_request "post" API_REGISTER [] (Some registerData) in
     let* username1 := get_prop (data response) "username" in
     let userName := js_or username1 (JStr username0) in
     let* role1 := get_prop (data response) "role" in
     let u := {| username := userName; role := js_or role1 (JStr "user") |} in
     let* token := get_prop (data response) "token" in
     do* (match token with
          | Some tok =>
              if js_truthy (Some tok) then
                do* setItem_token tok in
                AsyncStorage_setItem USER_DATA_KEY (json_stringify (user_to_json u))
              else resolve tt
          | None => resolve tt
          end) in
     do* dispatch (REGISTER_SUCCESS u) in
     resolve true)
    (fun err =>
       let errorMessage := js_or (error_message err) (JStr "Registration failed") in
       do* dispatch (REGISTER_FAILURE errorMessage) in
       reject (JsError (js_String errorMessage))).

End Register.

(** [logoutUser]; the final [router.replace('/login')] is navigation and
    touches neither storage nor session state. *)
Definition logoutUser : promise unit :=
  do* logout in
  do* AsyncStorage_removeItem USER_DATA_KEY in
  dispatch LOGOUT.

(* ------------------------------------------------------------------ *)
(** ** [URLSearchParams] and [MovieService.searchMovies] (102-126) *)

(** [application/x-www-form-urlencoded] byte serializer used by
    [URLSearchParams.prototype.toString]. *)
Definition form_unreserved (c : ascii) : bool :=
  let n := nat_of_ascii c in
  (n =? 42)%nat || (n =? 45)%nat || (n =? 46)%nat || (n =? 95)%nat ||
  ((48 <=? n) && (n <=? 57))%nat || ((65 <=? n) && (n <=? 90))%nat ||
  ((97 <=? n) && (n <=? 122))%nat.

Definition hex_digit (n : nat) : ascii :=
  if (n <? 10)%nat then ascii_of_nat (48 + n) else ascii_of_nat (55 + n).

Fixpoint form_encode (s : string) : string :=
  match s with
  | EmptyString => EmptyString
  | String c rest =>
      if form_unreserved c then String c (form_encode rest)
      else if (nat_of_ascii c =? 32)%nat then String "+" (form_encode rest)
      else String "%" (String (hex_digit (nat_of_ascii c / 16))
                        (String (hex_digit (nat_of_ascii c mod 16)) (form_encode rest)))
  end.

Definition URLSearchParams : Type := list (string * string).

Definition qs_append (q : URLSearchParams) (k v : string) : URLSearchParams :=
  q ++ [(k, v)].

Definition qs_toString (q : URLSearchParams) : string :=
  String.concat "&" (List.map (fun '(k, v) => form_encode k ++ "=" ++ form_encode v)%string q).

Record MovieSearchParams : Type := {
  pageNumber : option Z;
  pageSize : option Z;
  searchTerm : option string;
  sortBy : option string;
  sortOrder : option string;     (** ['asc' | 'desc'] *)
  releaseYear : option Z;
  genreIds : option (list Z)
}.

Definition num_truthy (n : option Z) : bool :=
  match n with Some k => negb (Z.eqb k 0) | None => false end.

Definition str_truthy (s : option string) : bool :=
  match s with Some t => string_truthy t | None => false end.

(** [x || d] on an optional number. *)
Definition num_or (n : option Z) (d : Z) : Z :=
  match n with Some k => if negb (Z.eqb k 0) then k else d | None => d end.

Definition opt_str (s : option string) : string :=
  match s with Some t => t | None => "" end.

(** Lines 104-113: the parameters appended before the genre ids. *)
Definition search_base_query (params : MovieSearchParams) : URLSearchParams :=
  let q := [] in
  let q := if str_truthy (searchTerm params)
           then qs_append q "SearchTerm" (opt_str (searchTerm params)) else q in
  let q := qs_append q "PageNumber" (Z_to_string (num_or (pageNumber params) 1)) in
  let q := qs_append q "PageSize" (Z_to_string (num_or (pageSize params) 10)) in
  let q := if str_truthy (sortBy params)
           then qs_append q "SortBy" (opt_str (sortBy params)) else q in
  let q := if str_truthy (sortOrder params)
           then qs_append q "SortOrder" (opt_str (sortOrder params)) else q in
  let q := if num_truthy (releaseYear params)
           then qs_append q "ReleaseYear" (Z_to_string (num_or (releaseYear params) 0))
           else q in
  qs_append q "version" API_VERSION.

(** Lines 115-120. *)
Definition search_query (params : MovieSearchParams) : URLSearchParams :=
  let q := search_base_query params in
  match genreIds params with
  | Some ids =>
      if (0 <? length ids)%nat
      then fold_left (fun q genreId => qs_append q "GenreIds" (Z_to_string genreId)) ids q
      else q
  | None => q
  end.

(** Line 123. *)
Definition search_url (params : MovieSearchParams) : string :=
  (API_MOVIES ++ "/search?" ++ qs_toString (search_query params))%string.

Definition searchMovies (params : MovieSearchParams) : promise json :=
  let* response := apiClient_request "get" (search_url params) [] None in
  resolve (data response).

(* ------------------------------------------------------------------ *)
(** ** zod schemas ([z.object], [z.array], ...) and [schema.parse] *)

Inductive zschema : Type :=
| ZNumber
| ZString
| ZBoolean
| ZAny
| ZArray (elem : zschema)
| ZObject (shape : list (string * zschema))
| ZNullable (inner : zschema)
| ZOptional (inner : zschema)
| ZDefault (inner : zschema) (dflt : json).

(** [safeParse] of a possibly-undefined input: [None] is a failure, and
    [Some None] an accepted [undefined]. Objects keep the keys of the shape
    (unknown keys are stripped), in the order of the shape. *)
Fixpoint zparse (s : zschema) (v : option json) {struct s} : option (option json) :=
  match s with
  | ZNumber => match v with Some (JNum n) => Some (Some (JNum n)) | _ => None end
  | ZString => match v with Some (JStr t) => Some (Some (JStr t)) | _ => None end
  | ZBoolean => match v with Some (JBool b) => Some (Some (JBool b)) | _ => None end
  | ZAny => Some v
  | ZArray elem =>
      match v with
      | Some (JArr xs) =>
          match (fix go (xs : list json) : option (list json) :=
                   match xs with
                   | [] => Some []
                   | x :: rest =>
                       match zparse elem (Some x), go rest with
                       | Some (Some y), Some ys => Some (y :: ys)
                       | _, _ => None
                       end
                   end) xs with
          | Some ys => Some (Some (JArr ys))
          | None => None
          end
      | _ => None
      end
  | ZObject shape =>
      match v with
      | Some (JObj kvs) =>
          match (fix go (fs : list (string * zschema)) : option (list (string * json)) :=
                   match fs with
                   | [] => Some []
                   | (k, sk) :: rest =>
                       match zparse sk (assoc_get k kvs), go rest with
                       | Some (Some y), Some ys => Some ((k, y) :: ys)
                       | Some None, Some ys => Some ys
                       | _, _ => None
                       end
                   end) shape with
          | Some out => Some (Some (JObj out))
          | None => None
          end
      | _ => None
      end
  | ZNullable inner => match v with Some JNull => Some (Some JNull) | _ => zparse inner v end
  | ZOptional inner => match v with None => Some None | _ => zparse inner v end
  | ZDefault inner d => match v with None => Some (Some d) | _ => zparse inner v end
  end.

(** [schema.parse(v)]: the parsed value, or a thrown [ZodError]. *)
Definition schema_parse (s : zschema) (v : json) : promise json :=
  match zparse s (Some v) with
  | Some (Some y) => resolve y
  | _ => reject (ZodError v)
  end.

(** [PaginationSchema] (types.ts 4-12). *)
Definition PaginationSchema : zschema :=
  ZObject [("items", ZArray ZAny); ("totalCount", ZNumber); ("pageNumber", ZNumber);
           ("pageSize", ZNumber); ("totalPages", ZNumber);
           ("hasPrevious", ZBoolean); ("hasNext", ZBoolean)].

(** [MovieSchema] and [MovieResponseSchema] (types.ts 25-39). *)
Definition MovieSchema : zschema :=
  ZObject [("id", ZNumber); ("title", ZString); ("releaseYear", ZNumber);
           ("plot", ZNullable ZString); ("runtimeMinutes", ZNumber);
           ("posterUrl", ZNullable ZString); ("directorName", ZString);
           ("genres", ZArray ZString); ("actors", ZArray ZString)].

Definition MovieResponseSchema : zschema :=
  ZObject [("items", ZArray MovieSchema); ("totalCount", ZNumber); ("pageNumber", ZNumber);
           ("pageSize", ZNumber); ("totalPages", ZNumber);
           ("hasPrevious", ZBoolean); ("hasNext", ZBoolean)].

(** [PersonSchema] (people service, part_000 36-56). *)
Definition PersonSchema : zschema :=
  ZObject [("id", ZNumber); ("name", ZString);
           ("profileImageUrl", ZOptional (ZNullable ZString));
           ("biography", ZOptional (ZNullable ZString));
           ("birthDate", ZOptional (ZNullable ZString));
           ("deathDate", ZOptional (ZNullable ZString));
           ("placeOfBirth", ZOptional (ZNullable ZString));
           ("isDirector", ZDefault ZBoolean (JBool false));
           ("isActor", ZDefault ZBoolean (JBool false));
           ("movies", ZDefault (ZArray (ZObject
               [("id", ZNumber); ("title", ZString); ("posterUrl", ZNullable ZString);
                ("releaseDate", ZNullable ZString); ("character", ZNullable ZString);
                ("job", ZNullable ZString)])) (JArr []))].

(** [GenreSchema] and [PopularGenreSchema] (genre service, part_001 8-23). *)
Definition GenreSchema : zschema :=
  ZObject [("id", ZNumber); ("name", ZString); ("description", ZNullable ZString);
           ("createdAt", ZString); ("modifiedAt", ZNullable ZString);
           ("createdBy", ZNullable ZString); ("modifiedBy", ZNullable ZString);
           ("isDeleted", ZBoolean)].

Definition PopularGenreSchema : zschema :=
  ZObject [("genre", GenreSchema); ("movieCount", ZNumber)].

(* ------------------------------------------------------------------ *)
(** ** Resource services *)

Definition API_PERSON_DETAILS (id : string) : string :=
  ("/api/v1/movies/people/" ++ id)%string.
Definition API_POPULAR_GENRES : string := "/api/v1/movies/genre/popular".
Definition API_GENRES : string := "/api/v1/genres".

(** [MovieService.getMovies] (movie-service.ts 51-60); the artificial
    1.5 s delay for [pageNumber > 1] is timing only. *)
Definition getMovies (pageNumber0 pageSize0 : Z) : promise json :=
  let* response := apiClient_request "get" API_MOVIES
      [("pageNumber", Z_to_string pageNumber0); ("pageSize", Z_to_string pageSize0);
       ("version", API_VERSION)] None in
  resolve (data response).

(** [GenreService.getGenres] (part_001 55-60). *)
Definition getGenres (pageNumber0 pageSize0 : Z) : promise json :=
  let* response := apiClient_request "get" API_GENRES
      [("pageNumber", Z_to_string pageNumber0); ("pageSize", Z_to_string pageSize0);
       ("version", API_VERSION)] None in
  resolve (data response).

(** [GenreService.getPopularGenres] (part_001 95-100). *)
Definition getPopularGenres : promise json :=
  let* response := apiClient_request "get" API_POPULAR_GENRES
      [("version", API_VERSION)] None in
  schema_parse (ZArray PopularGenreSchema) (data response).

(** [peopleService.getPersonDetails] (part_000 94-102); the catch block logs
    and rethrows the same error. *)
Definition getPersonDetails (id : string) : promise json :=
  catch_
    (let* response := apiClient_request "get" (API_PERSON_DETAILS id) [] None in
     schema_parse PersonSchema (data response))
    (fun error => reject error).

Definition API_ACTORS : string := "/api/v1/actors".
Definition API_DIRECTORS : string := "/api/v1/directors".
Definition API_SEARCH_PEOPLE : string := "/api/v1/movies/people/search".

(** [ActorService.getActors] (actor-service.ts 34-39). *)
Definition getActors (pageNumber0 pageSize0 : Z) : promise json :=
  let* response := apiClient_request "get" API_ACTORS
      [("pageNumber", Z_to_string pageNumber0); ("pageSize", Z_to_string pageSize0);
       ("version", API_VERSION)] None in
  resolve (data response).

(** [DirectorService.getDirectors] (director-service.ts 49-54). *)
Definition getDirectors (pageNumber0 pageSize0 : Z) : promise json :=
  let* response := apiClient_request "get" API_DIRECTORS
      [("pageNumber", Z_to_string pageNumber0); ("pageSize", Z_to_string pageSize0);
       ("version", API_VERSION)] None in
  resolve (data response).

(** [PaginatedPeopleSchema] (part_000 59-64). *)
Definition PaginatedPeopleSchema : zschema :=
  ZObject [("results", ZArray PersonSchema); ("totalCount", ZNumber);
           ("page", ZNumber); ("totalPages", ZNumber)].

(** [peopleService.searchPeople] (part_000 105-113); [params] are the
    serialized [PeopleSearchParams]. *)
Definition searchPeople (params : list (string * string)) : promise json :=
  catch_
    (let* response := apiClient_request "get" API_SEARCH_PEOPLE params None in
     schema_parse PaginatedPeopleSchema (data response))
    (fun error => reject error).

(** The other operations of [MovieService] (movie-service.ts 62-100);
    [`${API_ENDPOINTS.MOVIES}/${id}`] renders the number [id] in decimal,
    and a body argument is the caller's object. *)
Definition getMovie (id : Z) : promise json :=
  let* response := apiClient_request "get" (API_MOVIES ++ "/" ++ Z_to_string id)%string
      [("version", API_VERSION)] None in
  resolve (data response).

Definition createMovie (movie : json) : promise json :=
  let* response := apiClient_request "post" API_MOVIES
      [("version", API_VERSION)] (Some movie) in
  resolve (data response).

Definition updateMovie (id : Z) (movie : json) : promise unit :=
  do* apiClient_request "put" (API_MOVIES ++ "/" ++ Z_to_string id)%string
        [("version", API_VERSION)] (Some movie) in
  resolve tt.

Definition deleteMovie (id : Z) : promise unit :=
  do* apiClient_request "delete" (API_MOVIES ++ "/" ++ Z_to_string id)%string
        [("version", API_VERSION)] None in
  resolve tt.

Definition getMoviesByActor (actorId pageNumber0 pageSize0 : Z) : promise json :=
  let* response := apiClient_request "get"
      (API_MOVIES ++ "/actor/" ++ Z_to_string actorId)%string
      [("pageNumber", Z_to_string pageNumber0); ("pageSize", Z_to_string pageSize0);
       ("version", API_VERSION)] None in
  resolve (data response).

Definition getMoviesByGenre (genreId pageNumber0 pageSize0 : Z) : promise json :=
  let* response := apiClient_request "get"
      (API_MOVIES ++ "/genre/" ++ Z_to_string genreId)%string
      [("pageNumber", Z_to_string pageNumber0); ("pageSize", Z_to_string pageSize0);
       ("version", API_VERSION)] None in
  resolve (data response).

(** The other operations of [ActorService] (actor-service.ts 41-79). *)
Definition API_ACTOR_DETAILS (id : string) : string := ("/api/v1/actors/" ++ id)%string.
Definition API_SEARCH_ACTORS : string := "/api/v1/actors/search".
Definition API_ACTOR_MOVIES (id : string) : string := ("/api/v1/movies/actors/" ++ id)%string.

Definition getActor (id : Z) : promise json :=
  let* response := apiClient_request "get" (API_ACTOR_DETAILS (Z_to_string id))
      [("version", API_VERSION)] None in
  resolve (data response).

Definition createActor (actor : json) : promise json :=
  let* response := apiClient_request "post" API_ACTORS
      [("version", API_VERSION)] (Some actor) in
  resolve (data response).

Definition updateActor (id : Z) (actor : json) : promise unit :=
  do* apiClient_request "put" (API_ACTOR_DETAILS (Z_to_string id))
        [("version", API_VERSION)] (Some actor) in
  resolve tt.

Definition deleteActor (id : Z) : promise unit :=
  do* apiClient_request "delete" (API_ACTOR_DETAILS (Z_to_string id))
        [("version", API_VERSION)] None in
  resolve tt.

Definition searchActors (query : string) (pageNumber0 pageSize0 : Z) : promise json :=
  let* response := apiClient_request "get" API_SEARCH_ACTORS
      [("query", query); ("pageNumber", Z_to_string pageNumber0);
       ("pageSize", Z_to_string pageSize0); ("version", API_VERSION)] None in
  resolve (data response).

Definition getActorMovies (id pageNumber0 pageSize0 : Z) : promise json :=
  let* response := apiClient_request "get" (API_ACTOR_MOVIES (Z_to_string id))
      [("pageNumber", Z_to_string pageNumber0); ("pageSize", Z_to_string pageSize0);
       ("version", API_VERSION)] None in
  resolve (data response).

(** The other operations of [DirectorService] (director-service.ts 56-87). *)
Definition API_DIRECTOR_DETAILS (id : string) : string := ("/api/v1/directors/" ++ id)%string.
Definition API_SEARCH_DIRECTORS : string := "/api/v1/directors/search".

Definition getDirector (id : Z) : promise json :=
  let* response := apiClient_request "get" (API_DIRECTOR_DETAILS (Z_to_string id))
      [("version", API_VERSION)] None in
  resolve (data response).

Definition createDirector (director : json) : promise json :=
  let* response := apiClient_request "post" API_DIRECTORS
      [("version", API_VERSION)] (Some director) in
  resolve (data response).

Definition updateDirector (id : Z) (director : json) : promise unit :=
  do* apiClient_request "put" (API_DIRECTOR_DETAILS (Z_to_string id))
        [("version", API_VERSION)] (Some director) in
  resolve tt.

Definition deleteDirector (id : Z) : promise unit :=
  do* apiClient_request "delete" (API_DIRECTOR_DETAILS (Z_to_string id))
        [("version", API_VERSION)] None in
  resolve tt.

Definition searchDirectors (query : string) (pageNumber0 pageSize0 : Z) : promise json :=
  let* response := apiClient_request "get" API_SEARCH_DIRECTORS
      [("query", query); ("pageNumber", Z_to_string pageNumber0);
       ("pageSize", Z_to_string pageSize0); ("version", API_VERSION)] None in
  resolve (data response).

(** The other operations of [GenreService] (part_001 62-93). *)
Definition API_GENRE_DETAILS (id : string) : string := ("/api/v1/genres/" ++ id)%string.

Definition getGenre (id : string) : promise json :=
  let* response := apiClient_request "get" (API_GENRE_DETAILS id)
      [("version", API_VERSION)] None in
  resolve (data response).

Definition createGenre (genre : json) : promise json :=
  let* response := apiClient_request "post" API_GENRES
      [("version", API_VERSION)] (Some genre) in
  resolve (data response).

Definition updateGenre (id : string) (genre : json) : promise unit :=
  do* apiClient_request "put" (API_GENRE_DETAILS id)
        [("version", API_VERSION)] (Some genre) in
  resolve tt.

Definition deleteGenre (id : string) : promise unit :=
  do* apiClient_request "delete" (API_GENRE_DETAILS id)
        [("version", API_VERSION)] None in
  resolve tt.

(** [items.map(genre => genre.name)]: reading [name] of a [null] element
    throws; [None] in the result is [undefined]. *)
Fixpoint genre_names (gs : list json) : promise (list (option json)) :=
  match gs with
  | [] => resolve []
  | g :: rest =>
      let* name := get_prop g "name" in
      let* names := genre_names rest in
      resolve (name :: names)
  end.

(** [GenreService.getAllGenres] (part_001 88-93):
    [response.data.items.map(genre => genre.name)], with no validation.
    Reading [items] of a [null] body throws, and so does calling [map] on
    an [items] that is not an array (a JSON value has no [map] method). *)
Definition getAllGenres : promise (list (option json)) :=
  let* response := apiClient_request "get" API_GENRES
      [("pageSize", "100"); ("version", API_VERSION)] None in
  let* items := get_prop (data response) "items" in
  match items with
  | Some (JArr gs) => genre_names gs
  | _ => reject (JsError "TypeError")
  end.

(** The other operations of [peopleService] (part_000 17-33, 83-156); each
    catch block logs and rethrows the same error. *)
Definition API_POPULAR_PEOPLE : string := "/api/v1/movies/people/popular".
Definition API_ADMIN_PEOPLE : string := "/api/v1/admin/people".

Definition ActorSchema : zschema :=
  ZObject [("id", ZNumber); ("name", ZString); ("dateOfBirth", ZString);
           ("bio", ZNullable ZString); ("createdAt", ZString);
           ("modifiedAt", ZNullable ZString); ("createdBy", ZNullable ZString);
           ("modifiedBy", ZNullable ZString); ("isDeleted", ZBoolean)].

Definition PopularActorSchema : zschema :=
  ZObject [("actor", ActorSchema); ("movieCount", ZNumber)].

Definition getPopularPeople : promise json :=
  catch_
    (let* response := apiClient_request "get" API_POPULAR_PEOPLE [] None in
     schema_parse (ZArray PopularActorSchema) (data response))
    (fun error => reject error).

Definition getFilmography (id : string) : promise json :=
  catch_
    (let* response := apiClient_request "get" (API_PERSON_DETAILS id ++ "/filmography")%string
         [] None in
     resolve (data response))
    (fun error => reject error).

Definition createPerson (personData : json) : promise json :=
  catch_
    (let* response := apiClient_request "post" API_ADMIN_PEOPLE [] (Some personData) in
     schema_parse PersonSchema (data response))
    (fun error => reject error).

Definition updatePerson (id : string) (personData : json) : promise json :=
  catch_
    (let* response := apiClient_request "put" (API_ADMIN_PEOPLE ++ "/" ++ id)%string []
         (Some personData) in
     schema_parse PersonSchema (data response))
    (fun error => reject error).

Definition deletePerson (id : string) : promise unit :=
  catch_
    (do* apiClient_request "delete" (API_ADMIN_PEOPLE ++ "/" ++ id)%string [] None in
     resolve tt)
    (fun error => reject error).

(** [Math.ceil(a / b)] for [b > 0]. *)
Definition ceil_div (a b : Z) : Z := - ((- a) / b).

(** The envelope invariant of the spec, on a JSON page object. *)
Definition page_invariant (v : json) : Prop :=
  match json_get "totalCount" v, json_get "pageSize" v, json_get "pageNumber" v,
        json_get "totalPages" v, json_get "hasNext" v with
  | Some (JNum tc), Some (JNum ps), Some (JNum pn), Some (JNum tp), Some (JBool hn) =>
      tp = ceil_div tc ps /\ hn = (pn <? tp)
  | _, _, _, _, _ => False
  end.

(* ------------------------------------------------------------------ *)
(** ** Home screen infinite scroll ([src/app/(tabs)/home.tsx] 33-83) *)


(** The screen's query: [queryKey: ['movies', page]],
    [queryFn: () => movieService.getMovies(page, limit)], [limit = 10];
    the page number is the only varying part of the query, and the data
    of a key is the body [getMovies] returned. *)
Definition home_limit : Z := 10.









(* ------------------------------------------------------------------ *)
(** ** Session restore on start-up ([checkAuthStatus], auth-context.tsx 107-139) *)

(** The user [checkAuthStatus] falls back to when a token is stored
    without user data (line 122). *)
Definition fallback_user : User := {| username := JStr "user"; role := JStr "user" |}.

Section CheckAuthStatus.

(** [JSON.parse(userDataString)] (line 119): the user the stored text
    denotes, or [None] when the parse throws. Every writer of
    ["user_data"] ([login], [register] and this function) stores
    [JSON.stringify] of a [{ username, role }] object; a stored text that
    parses to some other value is outside this model. *)
Variable JSON_parse_user : string -> option User.

(** The effect's [checkAuthStatus]; the [console.error] of the catch block
    is output only, and the [SyntaxError] it catches is discarded. *)
Definition checkAuthStatus : promise unit :=
  catch_
    (let* token := AsyncStorage_getItem TOKEN_STORAGE_KEY in
     if str_truthy token then
       let* userDataString := AsyncStorage_getItem USER_DATA_KEY in
       let* u :=
         (if str_truthy userDataString then
            match JSON_parse_user (opt_str userDataString) with
            | Some u => resolve u
            | None => reject (JsError "SyntaxError")
            end
          else
            do* AsyncStorage_setItem USER_DATA_KEY
                  (json_stringify (user_to_json fallback_user)) in
            resolve fallback_user) in
       dispatch (LOGIN_SUCCESS u)
     else dispatch (LOGIN_FAILURE (JStr "No stored credentials")))
    (fun error =>
       do* logout in
       dispatch (LOGIN_FAILURE (JStr "Session expired"))).

End CheckAuthStatus.

(* ------------------------------------------------------------------ *)
(** ** React Query keys and cache invalidation *)

(** A query key: an array of JSON-like values. *)
Definition QueryKey : Type := list json.

(** [movieKeys] (movie-service.ts 26-36). *)
Definition movieKeys_all : QueryKey := [JStr "movies"].
Definition movieKeys_lists : QueryKey := movieKeys_all ++ [JStr "list"].
Definition movieKeys_list (filters : string) : QueryKey :=
  movieKeys_lists ++ [JObj [("filters", JStr filters)]].
Definition movieKeys_details : QueryKey := movieKeys_all ++ [JStr "detail"].
Definition movieKeys_detail (id : Z) : QueryKey := movieKeys_details ++ [JNum id].
Definition movieKeys_byActor : QueryKey := movieKeys_all ++ [JStr "byActor"].
Definition movieKeys_actorMovies (id : Z) : QueryKey := movieKeys_byActor ++ [JNum id].
Definition movieKeys_byGenre : QueryKey := movieKeys_all ++ [JStr "byGenre"].
Definition movieKeys_genreMovies (id : Z) : QueryKey := movieKeys_byGenre ++ [JNum id].

(** The home screen's key [['movies', page]] (home.tsx 44). *)
Definition home_queryKey (page : Z) : QueryKey := [JStr "movies"; JNum page].

(** [typeof v]; [None] is [undefined]. *)
Definition js_typeof (v : option json) : string :=
  match v with
  | None => "undefined"
  | Some JNull => "object"
  | Some (JBool _) => "boolean"
  | Some (JNum _) => "number"
  | Some (JStr _) => "string"
  | Some (JArr _) | Some (JObj _) => "object"
  end.

(** Value of a string of decimal digits. *)
Fixpoint digits_value (s : string) (acc : nat) : option nat :=
  match s with
  | EmptyString => Some acc
  | String c rest =>
      let n := nat_of_ascii c in
      if ((48 <=? n) && (n <=? 57))%nat then digits_value rest (acc * 10 + (n - 48))
      else None
  end.

(** A property name that is an array index: the canonical decimal
    rendering of a natural number. *)
Definition array_index (k : string) : option nat :=
  match k with
  | EmptyString => None
  | _ =>
      match digits_value k 0 with
      | Some i => if String.eqb (Z_to_string (Z.of_nat i)) k then Some i else None
      | None => None
      end
  end.

(** Property read [a[k]] on an object or an array. *)
Definition js_get_prop (a : option json) (k : string) : option json :=
  match a with
  | Some (JObj kvs) => assoc_get k kvs
  | Some (JArr xs) =>
      if String.eqb k "length" then Some (JNum (Z.of_nat (length xs)))
      else match array_index k with Some i => nth_error xs i | None => None end
  | _ => None
  end.

(** [a === b] on primitive values. Two objects are [===] only when they are
    the same reference, and [partialMatchKey] answers [true] for such a
    pair on its structural branch as well, so that case is left to it. *)
Definition strict_eq_prim (a b : option json) : bool :=
  match a, b with
  | None, None => true
  | Some JNull, Some JNull => true
  | Some (JBool x), Some (JBool y) => Bool.eqb x y
  | Some (JNum x), Some (JNum y) => Z.eqb x y
  | Some (JStr x), Some (JStr y) => String.eqb x y
  | _, _ => false
  end.

(** [partialMatchKey(a, b)] of @tanstack/query-core:
    [if (a === b) return true; if (typeof a !== typeof b) return false;
     if (a && b && typeof a === 'object' && typeof b === 'object')
       return Object.keys(b).every(key => partialMatchKey(a[key], b[key]));
     return false]. *)
Fixpoint partialMatchKey (a : option json) (b : json) {struct b} : bool :=
  if strict_eq_prim a (Some b) then true
  else if negb (String.eqb (js_typeof a) (js_typeof (Some b))) then false
  else
    match a with
    | Some (JArr _) | Some (JObj _) =>
        match b with
        | JArr ys =>
            (fix go (i : nat) (ys : list json) {struct ys} : bool :=
               match ys with
               | [] => true
               | y :: rest =>
                   partialMatchKey (js_get_prop a (Z_to_string (Z.of_nat i))) y && go (S i) rest
               end) 0%nat ys
        | JObj kvs =>
            (fix go (kvs : list (string * json)) : bool :=
               match kvs with
               | [] => true
               | (k, y) :: rest => partialMatchKey (js_get_prop a k) y && go rest
               end) kvs
        | _ => false
        end
    | _ => false
    end.

(** [queryClient.invalidateQueries({ queryKey: f })] (not [exact]) marks
    every cached query whose key [k] satisfies [partialMatchKey(k, f)]. *)
Definition invalidates (f : QueryKey) (k : QueryKey) : bool :=
  partialMatchKey (Some (JArr k)) (JArr f).

Definition invalidated_by (fs : list QueryKey) (k : QueryKey) : bool :=
  existsb (fun f => invalidates f k) fs.

(** The keys the [onSuccess] handlers of the movie mutations invalidate
    (movie-service.ts 149-183). *)
Definition useCreateMovie_invalidations : list QueryKey := [movieKeys_lists].
Definition useUpdateMovie_invalidations (id : Z) : list QueryKey :=
  [movieKeys_lists; movieKeys_detail id].
Definition useDeleteMovie_invalidations (id : Z) : list QueryKey :=
  [movieKeys_lists; movieKeys_detail id].

(* ------------------------------------------------------------------ *)
(** ** Reading a query string back: the urlencoded parser *)

(** [URLSearchParams.prototype.getAll(k)]. *)
Definition qs_getAll (q : URLSearchParams) (k : string) : list string :=
  List.map snd (List.filter (fun kv => String.eqb (fst kv) k) q).

(** The [application/x-www-form-urlencoded] parser of the URL Standard,
    which a server applies to the query string [qs_toString] produces. *)
Definition hex_value (c : ascii) : option nat :=
  let n := nat_of_ascii c in
  if ((48 <=? n) && (n <=? 57))%nat then Some (n - 48)%nat
  else if ((65 <=? n) && (n <=? 70))%nat then Some (n - 55)%nat
  else if ((97 <=? n) && (n <=? 102))%nat then Some (n - 87)%nat
  else None.

(** Replacing [+] by a space and then percent-decoding, in one pass: a
    [%] is decoded only when two hex digits follow, and neither a [+] nor
    a space is a hex digit. *)
Fixpoint form_decode (s : string) : string :=
  match s with
  | EmptyString => EmptyString
  | String c rest =>
      if Ascii.eqb c "+"%char then String " "%char (form_decode rest)
      else if Ascii.eqb c "%"%char then
        match rest with
        | String h (String l rest') =>
            match hex_value h, hex_value l with
            | Some a, Some b => String (ascii_of_nat (a * 16 + b)) (form_decode rest')
            | _, _ => String c (form_decode rest)
            end
        | _ => String c (form_decode rest)
        end
      else String c (form_decode rest)
  end.

(** Strict splitting on a separator byte. *)
Fixpoint split_on (sep : ascii) (s : string) : list string :=
  match s with
  | EmptyString => [EmptyString]
  | String c rest =>
      if Ascii.eqb c sep then EmptyString :: split_on sep rest
      else match split_on sep rest with
           | x :: xs => String c x :: xs
           | [] => [String c EmptyString]
           end
  end.

(** The bytes before the first [sep], and those after it if there is one. *)
Fixpoint break_at (sep : ascii) (s : string) : string * option string :=
  match s with
  | EmptyString => (EmptyString, None)
  | String c rest =>
      if Ascii.eqb c sep then (EmptyString, Some rest)
      else let '(a, b) := break_at sep rest in (String c a, b)
  end.

Definition qs_parse (input : string) : URLSearchParams :=
  List.flat_map
    (fun bytes =>
       if String.eqb bytes "" then []
       else
         let '(name, value) :=
           match break_at "="%char bytes with
           | (n, Some v) => (n, v)
           | (n, None) => (n, EmptyString)
           end in
         [(form_decode name, form_decode value)])
    (split_on "&"%char input).

(* ================================================================== *)
(** * Properties *)

(** Fixtures: a device world answering every request with [r]. *)
Definition answer (r : response) (c : request_config) : option response := Some r.

Definition ok_response : response := {| status := 200; data := JNull |}.

Definition test_world (conn : option bool) (st : gmap string string)
    (srv : request_config -> option response) : world :=
  {| w_platform := "ios"; w_isConnected := conn; w_storage := st;
     w_server := srv; w_sent := []; w_auth := initialState |}.

Definition token_store (t : string) : gmap string string := {[TOKEN_STORAGE_KEY := t]}.

Definition empty_config : request_config := mk_config "" "" "" [] None.

(** Characters [URLSearchParams] leaves unescaped. *)
Fixpoint all_unreserved (s : string) : bool :=
  match s with
  | EmptyString => true
  | String c rest => form_unreserved c && all_unreserved rest
  end.

(** The outcome [schema.parse] gives the caller. *)
Definition parse_outcome (s : zschema) (v : json) : settled json :=
  match zparse s (Some v) with
  | Some (Some y) => Fulfilled y
  | _ => Rejected (ZodError v)
  end.

Definition genre_pairs (ids : list Z) : URLSearchParams :=
  List.map (fun g => ("GenreIds", Z_to_string g)%string) ids.

Definition is_genre_key (kv : string * string) : bool := String.eqb (fst kv) "GenreIds".

Definition page_obj (items : list json) (tc pn ps tp : Z) (hp hn : bool) : json :=
  JObj [("items", JArr items); ("totalCount", JNum tc); ("pageNumber", JNum pn);
        ("pageSize", JNum ps); ("totalPages", JNum tp);
        ("hasPrevious", JBool hp); ("hasNext", JBool hn)].

Definition inconsistent_page : json := page_obj [] 5 1 2 1 false false.

(** A stand-in for [AsyncStorage.setItem] with a non-string value; none
    of the concrete runs below reaches it. *)
Definition setItem_ignored (k : string) (v : json) : promise unit := resolve tt.

Definition register_fixture_response : response :=
  {| status := 200; data := JObj [("username", JStr "alice")] |}.



(** Fixtures of the further properties. *)
Definition error_response (st : Z) (msg : string) : response :=
  {| status := st; data := JObj [("message", JStr msg)] |}.

Definition token_response (t : string) : response :=
  {| status := 200; data := JObj [("token", JStr t); ("username", JStr "alice")] |}.

Definition person_response : response :=
  {| status := 200; data := JObj [("id", JNum 7); ("name", JStr "Ann"); ("extra", JBool true)] |}.

Definition no_parse (s : string) : option User := None.

Definition user_store (t u : string) : gmap string string :=
  <[USER_DATA_KEY := u]> (token_store t).

(** [s] does not contain the byte [x]. *)
Fixpoint byte_free (x : ascii) (s : string) : bool :=
  match s with
  | EmptyString => true
  | String c rest => negb (Ascii.eqb c x) && byte_free x rest
  end.

Definition zobject_keys (s : zschema) : list string :=
  match s with ZObject shape => List.map fst shape | _ => [] end.

(** The parameter names [searchMovies] may put in its query. *)
Definition search_keys : list string :=
  ["SearchTerm"; "PageNumber"; "PageSize"; "SortBy"; "SortOrder"; "ReleaseYear";
   "version"; "GenreIds"]%string.

Ltac unfold_client :=
  unfold apiClient_request, axios_request, request_interceptor,
    request_interceptor_error, dispatchRequest, response_interceptor,
    response_interceptor_error, logout, error_status in *;
  unfold then_, bind, resolve, reject, NetInfo_fetch, AsyncStorage_getItem,
    AsyncStorage_removeItem in *; cbn -[delete lookup] in *.

Example Z_to_string_test : Z_to_string 1234 = "1234"%string /\ Z_to_string 0 = "0"%string
                           /\ Z_to_string (-7) = "-7"%string.
Proof. vm_compute. auto. Qed.

Example header_test :
  assoc_get "Authorization"
    (rc_headers (hd empty_config (w_sent (fst (apiClient_request "get" API_MOVIES [] None
       (test_world (Some true) (token_store "abc123") (answer ok_response)))))))
  = Some "Bearer abc123"%string.
Proof. vm_compute. reflexivity. Qed.

Lemma assoc_get_set_header_eq (k v : string) (hs : list (string * string)) :
  assoc_get k (set_header k v hs) = Some v.
Proof.
  induction hs as [|[k' v'] rest IH]; cbn.
  - now rewrite String.eqb_refl.
  - destruct (String.eqb k k') eqn:E; cbn.
    + now rewrite String.eqb_refl.
    + now rewrite E.
Qed.

Lemma no_default_authorization (platform : string) :
  assoc_get "Authorization" (default_headers platform) = None.
Proof. reflexivity. Qed.

(** The request a connected client puts on the wire, and the outcome of
    the whole interceptor chain, by cases on the server's answer. *)
Lemma apiClient_request_connected (w : world) method url params body :
  w_isConnected w = Some true ->
  let c0 := mk_config (w_platform w) method url params body in
  let c := match authorization_of (w_storage w !! TOKEN_STORAGE_KEY) with
           | Some h => with_headers c0 (set_header "Authorization" h (rc_headers c0))
           | None => c0
           end in
  apiClient_request method url params body w =
  match w_server w (xhr_request c) with
  | Some r =>
      if validateStatus (status r)
      then (set_sent w (xhr_request c :: w_sent w), Fulfilled r)
      else if bool_decide (Some (status r) = Some 401)
      then (set_storage (set_sent w (xhr_request c :: w_sent w))
              (delete TOKEN_STORAGE_KEY (w_storage w)), Rejected (JsError SESSION_EXPIRED))
      else (set_sent w (xhr_request c :: w_sent w), Rejected (AxiosError c (Some r)))
  | None => (set_sent w (xhr_request c :: w_sent w), Rejected (AxiosError c None))
  end.
Proof.
  intros Hconn c0 c. unfold_client. rewrite Hconn. cbn -[xhr_request].
  unfold authorization_of in c.
  destruct (w_storage w !! TOKEN_STORAGE_KEY) as [t|] eqn:Ht;
    [destruct (string_truthy t) eqn:Htr|]; subst c c0; cbn -[xhr_request];
    (destruct (w_server w _) as [r|] eqn:Hr; [|reflexivity]);
    destruct (validateStatus (status r)); try reflexivity;
    destruct (bool_decide (Some (status r) = Some 401)); reflexivity.
Qed.

Lemma assoc_get_remove_header_eq (k : string) (hs : list (string * string)) :
  assoc_get k (remove_header k hs) = None.
Proof.
  induction hs as [|[k' v'] rest IH]; cbn; [reflexivity|].
  destruct (String.eqb k' k) eqn:E; cbn.
  - exact IH.
  - apply String.eqb_neq in E. assert (E' : k <> k') by congruence.
    apply String.eqb_neq in E'. now rewrite E'.
Qed.

Lemma assoc_get_remove_header_ne (k k' : string) (hs : list (string * string)) :
  k <> k' -> assoc_get k (remove_header k' hs) = assoc_get k hs.
Proof.
  intros Hne. unfold remove_header.
  induction hs as [|[k0 v0] rest IH]; cbn; [reflexivity|].
  destruct (String.eqb k0 k') eqn:E; cbn.
  - apply String.eqb_eq in E. subst k0.
    apply String.eqb_neq in Hne. rewrite Hne. exact IH.
  - destruct (String.eqb k k0); [reflexivity | exact IH].
Qed.

(** The adapter leaves method, URL, params and body as they are, and every
    header but [Content-Type]. *)
Lemma xhr_request_fields (c : request_config) :
  rc_method (xhr_request c) = rc_method c /\ rc_url (xhr_request c) = rc_url c /\
  rc_params (xhr_request c) = rc_params c /\ rc_data (xhr_request c) = rc_data c.
Proof. unfold xhr_request. destruct (rc_data c) eqn:E; cbn; auto. Qed.

Lemma xhr_request_header_ne (k : string) (c : request_config) :
  k <> "Content-Type"%string ->
  assoc_get k (rc_headers (xhr_request c)) = assoc_get k (rc_headers c).
Proof.
  intros Hne. unfold xhr_request. destruct (rc_data c); cbn; [reflexivity|].
  now apply assoc_get_remove_header_ne.
Qed.

Lemma xhr_request_content_type (c : request_config) :
  assoc_get "Content-Type" (rc_headers (xhr_request c)) =
    match rc_data c with
    | Some _ => assoc_get "Content-Type" (rc_headers c)
    | None => None
    end.
Proof.
  unfold xhr_request. destruct (rc_data c); cbn; [reflexivity|].
  apply assoc_get_remove_header_eq.
Qed.

(** ** C1 *)

(** Claim C1 (corrected): every request the shared client puts on the
    wire carries [Authorization: Bearer <token>] exactly when a non-empty
    token is stored under [TOKEN_STORAGE_KEY]; when no token, or the empty
    string, is stored, it carries no [Authorization] header. *)
Theorem C1_authorization_header (w : world) method url params body :
  w_isConnected w = Some true ->
  exists c,
    w_sent (fst (apiClient_request method url params body w)) = c :: w_sent w /\
    assoc_get "Authorization" (rc_headers c) =
      authorization_of (w_storage w !! TOKEN_STORAGE_KEY).
Proof.
  intros Hconn. rewrite (apiClient_request_connected w method url params body Hconn).
  set (c0 := mk_config (w_platform w) method url params body).
  set (c := match authorization_of (w_storage w !! TOKEN_STORAGE_KEY) with
            | Some h => with_headers c0 (set_header "Authorization" h (rc_headers c0))
            | None => c0
            end).
  exists (xhr_request c). split.
  - destruct (w_server w (xhr_request c)) as [r|]; [|reflexivity].
    destruct (validateStatus (status r)); [reflexivity|].
    destruct (bool_decide _); reflexivity.
  - rewrite xhr_request_header_ne by discriminate.
    subst c. destruct (authorization_of _) as [h|].
    + apply assoc_get_set_header_eq.
    + apply no_default_authorization.
Qed.

Lemma C1_authorization_header_witness :
  w_isConnected (test_world (Some true) (token_store "abc123") (answer ok_response))
    = Some true /\
  exists c,
    w_sent (fst (apiClient_request "get" API_MOVIES [] None
      (test_world (Some true) (token_store "abc123") (answer ok_response))))
      = c :: [] /\
    assoc_get "Authorization" (rc_headers c) =
      authorization_of ((token_store "abc123") !! TOKEN_STORAGE_KEY).
Proof.
  split; [reflexivity|].
  apply (C1_authorization_header
           (test_world (Some true) (token_store "abc123") (answer ok_response))
           "get" API_MOVIES [] None).
  reflexivity.
Defined.

(** C1 as stated fails: with the empty string stored under the token key,
    the request goes out without any [Authorization] header. *)
Lemma C1_empty_token_counterexample :
  (token_store "") !! TOKEN_STORAGE_KEY = Some ""%string /\
  exists c,
    w_sent (fst (apiClient_request "get" API_MOVIES [] None
      (test_world (Some true) (token_store "") (answer ok_response)))) = [c] /\
    assoc_get "Authorization" (rc_headers c) = None.
Proof.
  split; [vm_compute; reflexivity|].
  eexists. split; [vm_compute; reflexivity|]. vm_compute. reflexivity.
Qed.

(** ** C2 *)

(** Claim C2: when the server answers 401, the shared client removes the
    stored token (only through AsyncStorage, with no further request: the
    wire carries just the original request), a later read of the key gives
    [null], and the caller's promise rejects with the "Session expired"
    error; any other error reaching the response interceptor is rejected
    unchanged, and for a non-401 error status the caller receives the
    [AxiosError] of its own request and response with storage untouched. *)
Theorem C2_unauthorized_response (w : world) (r : response) method url params body :
  w_isConnected w = Some true ->
  (forall c, w_server w c = Some r) ->
  let out := apiClient_request method url params body w in
  (status r = 401 ->
     snd out = Rejected (JsError SESSION_EXPIRED) /\
     w_storage (fst out) = delete TOKEN_STORAGE_KEY (w_storage w) /\
     AsyncStorage_getItem TOKEN_STORAGE_KEY (fst out) = (fst out, Fulfilled None) /\
     length (w_sent (fst out)) = S (length (w_sent w))) /\
  (status r <> 401 -> validateStatus (status r) = false ->
     exists c, w_sent (fst out) = xhr_request c :: w_sent w /\
               snd out = Rejected (AxiosError c (Some r)) /\
               w_storage (fst out) = w_storage w) /\
  (forall (e : js_error) (w2 : world), error_status e <> Some 401 ->
     response_interceptor_error e w2 = (w2, Rejected e)).
Proof.
  intros Hconn Hsrv out. subst out.
  rewrite (apiClient_request_connected w method url params body Hconn), Hsrv.
  split; [|split].
  - intros H401. rewrite H401. cbn.
    rewrite bool_decide_eq_true_2 by reflexivity.
    unfold AsyncStorage_getItem; cbn.
    rewrite lookup_delete_eq. repeat split; reflexivity.
  - intros Hn401 Hvs. rewrite Hvs.
    rewrite bool_decide_eq_false_2 by congruence.
    eexists. repeat split; reflexivity.
  - intros e w2 He. unfold response_interceptor_error.
    rewrite bool_decide_eq_false_2 by exact He. reflexivity.
Qed.

Lemma C2_unauthorized_response_witness :
  let w := test_world (Some true) (token_store "abc123")
             (answer {| status := 401; data := JNull |}) in
  w_isConnected w = Some true /\
  (forall c, w_server w c = Some {| status := 401; data := JNull |}) /\
  snd (apiClient_request "get" API_MOVIES [] None w) = Rejected (JsError SESSION_EXPIRED).
Proof.
  cbv zeta. split; [reflexivity|]. split; [intros c; reflexivity|].
  apply (C2_unauthorized_response
           (test_world (Some true) (token_store "abc123")
              (answer {| status := 401; data := JNull |}))
           {| status := 401; data := JNull |} "get" API_MOVIES [] None);
    [reflexivity | intros c; reflexivity | reflexivity].
Defined.

(** ** C3 *)

(** Claim C3: while NetInfo reports no connectivity ([isConnected] false or
    [null]) a request through the shared client rejects with
    "No internet connection", and the world is left exactly as it was:
    nothing is put on the wire, no header is attached and storage is not
    touched. *)
Theorem C3_offline_fails_fast (w : world) method url params body :
  w_isConnected w <> Some true ->
  apiClient_request method url params body w =
    (w, Rejected (JsError "No internet connection")).
Proof.
  intros Hoff. unfold_client.
  destruct (w_isConnected w) as [[|]|]; [congruence | reflexivity | reflexivity].
Qed.

Lemma C3_offline_fails_fast_witness :
  let w := test_world (Some false) (token_store "abc123") (answer ok_response) in
  w_isConnected w <> Some true /\
  apiClient_request "get" API_MOVIES [] None w = (w, Rejected (JsError "No internet connection")).
Proof.
  cbv zeta. split; [discriminate|].
  apply (C3_offline_fails_fast
           (test_world (Some false) (token_store "abc123") (answer ok_response))
           "get" API_MOVIES [] None).
  discriminate.
Defined.

(** ** C10 *)

(** Claim C10: the [logout] helper the client runs on a 401 deletes the
    token key and nothing else, so ["user_data"] and every other key keep
    their values, while [logoutUser] deletes both the token key and
    ["user_data"]. *)
Theorem C10_logout_frame (w : world) :
  w_storage (fst (logout w)) = delete TOKEN_STORAGE_KEY (w_storage w) /\
  w_storage (fst (logout w)) !! USER_DATA_KEY = w_storage w !! USER_DATA_KEY /\
  w_storage (fst (logoutUser w)) =
    delete USER_DATA_KEY (delete TOKEN_STORAGE_KEY (w_storage w)) /\
  w_storage (fst (logoutUser w)) !! USER_DATA_KEY = None /\
  w_storage (fst (logoutUser w)) !! TOKEN_STORAGE_KEY = None.
Proof.
  unfold logoutUser, logout, dispatch, bind, AsyncStorage_removeItem; cbn.
  split; [reflexivity|]. split.
  { apply lookup_delete_ne. discriminate. }
  split; [reflexivity|]. split.
  - apply lookup_delete_eq.
  - rewrite lookup_delete_ne by discriminate. apply lookup_delete_eq.
Qed.

(** ** C6 *)

Lemma authReducer_keeps_link (s : AuthState) (a : AuthAction) :
  (isAuthenticated s = true <-> user s <> None) ->
  (isAuthenticated (authReducer s a) = true <-> user (authReducer s a) <> None).
Proof.
  intros H. destruct a; cbn; try exact H; split; congruence.
Qed.

(** Claim C6: in every auth state reached from [initialState] by any
    sequence of reducer actions, [isAuthenticated] is true exactly when
    [user] is non-null. *)
Theorem C6_isAuthenticated_iff_user (actions : list AuthAction) :
  let s := fold_left authReducer actions initialState in
  isAuthenticated s = true <-> user s <> None.
Proof.
  cbv zeta.
  assert (Hinit : isAuthenticated initialState = true <-> user initialState <> None)
    by (cbn; split; congruence).
  revert Hinit. generalize initialState as s.
  induction actions as [|a rest IH]; intros s Hs; cbn; [exact Hs|].
  apply IH. now apply authReducer_keeps_link.
Qed.

(** ** C9 *)

Lemma apiClient_request_ok (w : world) (r : response) method url params body :
  w_isConnected w = Some true ->
  (forall c, w_server w c = Some r) ->
  validateStatus (status r) = true ->
  exists c, apiClient_request method url params body w
            = (set_sent w (c :: w_sent w), Fulfilled r).
Proof.
  intros Hconn Hsrv Hok.
  rewrite (apiClient_request_connected w method url params body Hconn), Hsrv, Hok.
  eexists. reflexivity.
Qed.

(** C9 as stated fails: when the register call succeeds with a [null]
    body, which carries no token either, reading [response.data.username]
    throws; the catch block dispatches [REGISTER_FAILURE] and [register]
    rejects, so the session is not authenticated. *)
Lemma C9_null_body_counterexample :
  let w := test_world (Some true) ∅ (answer ok_response) in
  validateStatus (status ok_response) = true /\
  js_truthy (json_get "token" (data ok_response)) = false /\
  snd (register setItem_ignored "alice" "a@example.org" "secret" w)
    = Rejected (JsError "Registration failed") /\
  isAuthenticated (w_auth (fst (register setItem_ignored "alice" "a@example.org" "secret" w)))
    = false.
Proof. vm_compute. repeat split; reflexivity. Qed.

(** Claim C9 (corrected): when the register call succeeds with a body that
    is not [null] and has no (truthy) [token], [register] still dispatches
    [REGISTER_SUCCESS] with a user object and returns [true], leaving the
    session authenticated, while storage is exactly as before: neither the
    token key nor ["user_data"] is written. A [null] body instead makes
    [register] dispatch [REGISTER_FAILURE 'Registration failed'] and reject,
    storage untouched. *)
Theorem C9_register_without_token (setItem_nonstring : string -> json -> promise unit)
    (w : world) (r : response) (u e p : string) :
  w_isConnected w = Some true ->
  (forall c, w_server w c = Some r) ->
  validateStatus (status r) = true ->
  let out := register setItem_nonstring u e p w in
  let usr := {| username := js_or (json_get "username" (data r)) (JStr u);
                role := js_or (json_get "role" (data r)) (JStr "user") |} in
  (data r <> JNull -> js_truthy (json_get "token" (data r)) = false ->
   snd out = Fulfilled true /\
   w_storage (fst out) = w_storage w /\
   w_auth (fst out) =
     authReducer (authReducer (w_auth w) REGISTER_REQUEST) (REGISTER_SUCCESS usr) /\
   isAuthenticated (w_auth (fst out)) = true /\
   user (w_auth (fst out)) = Some usr) /\
  (data r = JNull ->
   snd out = Rejected (JsError "Registration failed") /\
   w_storage (fst out) = w_storage w /\
   w_auth (fst out) =
     authReducer (authReducer (w_auth w) REGISTER_REQUEST)
       (REGISTER_FAILURE (JStr "Registration failed")) /\
   isAuthenticated (w_auth (fst out)) = false).
Proof.
  intros Hconn Hsrv Hok out usr. subst out usr.
  unfold register, catch_, then_, bind, dispatch. cbv beta iota zeta.
  destruct (apiClient_request_ok (set_auth w (authReducer (w_auth w) REGISTER_REQUEST))
              r "post" API_REGISTER []
              (Some (JObj [("username", JStr u); ("email", JStr e);
                           ("password", JStr p); ("confirmPassword", JStr p)])))
    as [c Hc]; [exact Hconn | exact Hsrv | exact Hok |].
  rewrite Hc. unfold get_prop. split.
  - intros Hnn Htok.
    destruct (data r) as [| | | | |kvs]; [congruence | ..];
      cbn in Htok |- *; try (repeat split; reflexivity).
    destruct (assoc_get "token" kvs) as [tok|];
      [destruct tok; cbn in Htok |- *; try discriminate; try rewrite Htok|];
      cbn; repeat split; reflexivity.
  - intros Hnull. rewrite Hnull. cbn. repeat split; reflexivity.
Qed.

Lemma C9_register_without_token_witness :
  let w := test_world (Some true) ∅ (answer register_fixture_response) in
  w_isConnected w = Some true /\
  snd (register setItem_ignored "alice" "a@example.org" "secret" w) = Fulfilled true /\
  w_storage (fst (register setItem_ignored "alice" "a@example.org" "secret" w)) = ∅.
Proof.
  cbv zeta. split; [reflexivity|].
  destruct (C9_register_without_token setItem_ignored
              (test_world (Some true) ∅ (answer register_fixture_response))
              register_fixture_response "alice" "a@example.org" "secret")
    as [H _]; [reflexivity | intros c; reflexivity | reflexivity |].
  destruct H as [H1 [H2 _]]; [discriminate | reflexivity |].
  split; [exact H1 | exact H2].
Defined.

(** ** C8 *)

Lemma fold_genre_append (ids : list Z) (q : URLSearchParams) :
  fold_left (fun q genreId => qs_append q "GenreIds" (Z_to_string genreId)) ids q
  = q ++ genre_pairs ids.
Proof.
  revert q. induction ids as [|g rest IH]; intros q; cbn.
  - now rewrite app_nil_r.
  - rewrite IH. unfold qs_append. now rewrite <- app_assoc.
Qed.

Lemma search_query_shape (params : MovieSearchParams) :
  search_query params =
  search_base_query params ++
    match genreIds params with Some ids => genre_pairs ids | None => [] end.
Proof.
  unfold search_query.
  destruct (genreIds params) as [ids|]; [|now rewrite app_nil_r].
  destruct ((0 <? length ids)%nat) eqn:E.
  - apply fold_genre_append.
  - destruct ids; [now rewrite app_nil_r | discriminate].
Qed.

Lemma base_query_no_genre_key (params : MovieSearchParams) :
  List.filter is_genre_key (search_base_query params) = [].
Proof.
  unfold search_base_query, qs_append.
  destruct (str_truthy (searchTerm params)), (str_truthy (sortBy params)),
    (str_truthy (sortOrder params)), (num_truthy (releaseYear params)); reflexivity.
Qed.

Lemma base_query_nonempty (params : MovieSearchParams) :
  search_base_query params <> [].
Proof.
  unfold search_base_query, qs_append.
  destruct (str_truthy (searchTerm params)), (str_truthy (sortBy params)),
    (str_truthy (sortOrder params)), (num_truthy (releaseYear params)); cbn;
    discriminate.
Qed.

Lemma form_encode_unreserved (s : string) :
  all_unreserved s = true -> form_encode s = s.
Proof.
  induction s as [|c rest IH]; cbn; [reflexivity|].
  intros H. apply andb_prop in H as [Hc Hr]. rewrite Hc, IH by exact Hr. reflexivity.
Qed.

Lemma digit_unreserved (k : nat) :
  (k < 10)%nat -> form_unreserved (ascii_of_nat (48 + k)) = true.
Proof.
  intros Hk. do 10 (destruct k as [|k]; [reflexivity|]). lia.
Qed.

Lemma digits_rev_unreserved (fuel : nat) (n : Z) (acc : string) :
  0 <= n -> all_unreserved acc = true -> all_unreserved (digits_rev fuel n acc) = true.
Proof.
  revert n acc. induction fuel as [|f IH]; intros n acc Hn Hacc; cbn [digits_rev];
    [exact Hacc|].
  assert (Hd : form_unreserved (ascii_of_nat (48 + Z.to_nat (n mod 10))) = true).
  { apply digit_unreserved.
    pose proof (Z.mod_pos_bound n 10 ltac:(lia)). lia. }
  destruct (Z.eqb (n / 10) 0).
  - cbn [all_unreserved]. now rewrite Hd, Hacc.
  - apply IH; [apply Z.div_pos; lia|]. cbn [all_unreserved]. now rewrite Hd, Hacc.
Qed.

Lemma Z_to_string_unreserved (n : Z) : all_unreserved (Z_to_string n) = true.
Proof.
  unfold Z_to_string. destruct (n <? 0) eqn:E.
  - cbn [all_unreserved]. rewrite digits_rev_unreserved; [reflexivity | lia | reflexivity].
  - apply digits_rev_unreserved; [lia | reflexivity].
Qed.

Lemma str_app_assoc (a b c : string) : (a ++ b ++ c = (a ++ b) ++ c)%string.
Proof. induction a as [|x a IH]; [reflexivity | exact (f_equal (String x) IH)]. Qed.

Lemma str_app_nil_r (a : string) : (a ++ "" = a)%string.
Proof. induction a as [|x a IH]; [reflexivity | exact (f_equal (String x) IH)]. Qed.

Lemma concat_empty_cons (a : string) (rest : list string) :
  String.concat "" (a :: rest) = (a ++ String.concat "" rest)%string.
Proof.
  destruct rest as [|b rest]; [symmetry; apply str_app_nil_r | reflexivity].
Qed.

Lemma concat_empty_app (l1 l2 : list string) :
  String.concat "" (l1 ++ l2) = (String.concat "" l1 ++ String.concat "" l2)%string.
Proof.
  induction l1 as [|a l1 IH]; [reflexivity|].
  change ((a :: l1) ++ l2) with (a :: (l1 ++ l2)).
  rewrite !concat_empty_cons, IH. apply str_app_assoc.
Qed.

Lemma concat_cons (sep x : string) (l : list string) :
  String.concat sep (x :: l) =
  (x ++ String.concat "" (List.map (fun y => sep ++ y) l))%string.
Proof.
  revert x. induction l as [|y l IH]; intros x.
  - symmetry. apply str_app_nil_r.
  - change (String.concat sep (x :: y :: l))
      with (x ++ sep ++ String.concat sep (y :: l))%string.
    rewrite IH. cbn [List.map]. rewrite concat_empty_cons.
    f_equal. apply str_app_assoc.
Qed.

Lemma concat_app_nonempty (sep : string) (l1 l2 : list string) :
  l1 <> [] ->
  String.concat sep (l1 ++ l2) =
  (String.concat sep l1 ++ String.concat "" (List.map (fun x => sep ++ x) l2))%string.
Proof.
  intros Hne. destruct l1 as [|x l1]; [congruence|].
  change ((x :: l1) ++ l2) with (x :: (l1 ++ l2)).
  rewrite !concat_cons, List.map_app, concat_empty_app.
  apply str_app_assoc.
Qed.

Lemma filter_genre_pairs (ids : list Z) :
  List.filter is_genre_key (genre_pairs ids) = genre_pairs ids.
Proof.
  induction ids as [|g rest IH]; [reflexivity|].
  change (genre_pairs (g :: rest)) with (("GenreIds", Z_to_string g)%string :: genre_pairs rest).
  change (List.filter is_genre_key (("GenreIds", Z_to_string g)%string :: genre_pairs rest))
    with (("GenreIds", Z_to_string g)%string :: List.filter is_genre_key (genre_pairs rest)).
  now rewrite IH.
Qed.

(** Claim C8: [searchMovies] puts each genre id in the query as its own
    [GenreIds] parameter, one per id and in list order, after the other
    parameters (none of which uses that key), and a missing or empty
    [genreIds] list adds no [GenreIds] parameter; on the URL this is one
    [&GenreIds=<id>] segment per id. *)
Theorem C8_genre_ids_repeated (params : MovieSearchParams) :
  let ids := match genreIds params with Some l => l | None => [] end in
  List.filter is_genre_key (search_query params) = genre_pairs ids /\
  search_query params = search_base_query params ++ genre_pairs ids /\
  search_url params =
    (API_MOVIES ++ "/search?" ++ qs_toString (search_base_query params) ++
     String.concat "" (List.map (fun g => "&GenreIds=" ++ Z_to_string g) ids))%string.
Proof.
  cbv zeta.
  assert (Hq : search_query params = search_base_query params ++
                 genre_pairs (match genreIds params with Some l => l | None => [] end)).
  { rewrite search_query_shape. now destruct (genreIds params). }
  set (ids := match genreIds params with Some l => l | None => [] end) in *.
  split; [|split; [exact Hq|]].
  - rewrite Hq, List.filter_app, base_query_no_genre_key. apply filter_genre_pairs.
  - assert (Hg : List.map (fun x => "&" ++ x)%string
                   (List.map (fun '(k, v) => form_encode k ++ "=" ++ form_encode v)%string
                      (genre_pairs ids))
                 = List.map (fun g => "&GenreIds=" ++ Z_to_string g)%string ids).
    { unfold genre_pairs. rewrite !List.map_map. apply List.map_ext. intros g.
      rewrite (form_encode_unreserved (Z_to_string g)) by apply Z_to_string_unreserved.
      reflexivity. }
    unfold search_url, qs_toString. rewrite Hq, List.map_app.
    rewrite concat_app_nonempty
      by (destruct (search_base_query params) eqn:E;
          [exfalso; exact (base_query_nonempty params E) | discriminate]).
    rewrite Hg. reflexivity.
Qed.

Example search_url_test :
  search_url {| pageNumber := None; pageSize := None; searchTerm := Some "war"%string;
                sortBy := None; sortOrder := None; releaseYear := None;
                genreIds := Some [3; 12] |}
  = "/api/v1/movies/search?SearchTerm=war&PageNumber=1&PageSize=10&version=v1&GenreIds=3&GenreIds=12"%string.
Proof. vm_compute. reflexivity. Qed.

(** ** C4 *)

Lemma schema_parse_outcome (s : zschema) (v : json) (w : world) :
  schema_parse s v w = (w, parse_outcome s v).
Proof. unfold schema_parse, parse_outcome. now destruct (zparse s (Some v)) as [[y|]|]. Qed.

(** Every request of the goal on the world [w] answered with [r]. *)
Ltac answer_requests w r Hconn Hsrv Hok :=
  repeat match goal with
  | |- context [apiClient_request ?m ?u ?p ?b w] =>
      let c := fresh "c" in let Hc := fresh "Hc" in
      destruct (apiClient_request_ok w r m u p b Hconn Hsrv Hok) as [c Hc];
      rewrite Hc
  end.

Lemma genre_names_outcome (gs : list json) (w : world) :
  genre_names gs w =
    (w, if forallb (fun g => match g with JNull => false | _ => true end) gs
        then Fulfilled (List.map (json_get "name") gs)
        else Rejected (JsError "TypeError")).
Proof.
  induction gs as [|g gs IH]; [reflexivity|].
  cbn [genre_names]. unfold bind at 1, get_prop.
  destruct g; cbn [forallb]; try reflexivity;
    unfold bind, resolve; rewrite IH; destruct (forallb _ gs); reflexivity.
Qed.

(** C4 as stated fails: [MovieService.getMovies] hands back a body that
    does not match [MovieResponseSchema] without any validation error. *)
Lemma C4_getMovies_unvalidated_counterexample :
  let body := JStr "not a page" in
  let w := test_world (Some true) ∅ (answer {| status := 200; data := body |}) in
  zparse MovieResponseSchema (Some body) = None /\
  snd (getMovies 1 10 w) = Fulfilled body.
Proof. vm_compute. split; reflexivity. Qed.

(** Claim C4 (corrected): validation is per operation. On a successful
    answer, the people service operations [getPopularPeople],
    [getPersonDetails], [searchPeople], [createPerson] and [updatePerson],
    and [GenreService.getPopularGenres], parse the body with their zod
    schema: they fulfil with the parsed value, or reject with a [ZodError]
    carrying the body, a different error from the transport ones
    ([AxiosError], "No internet connection", "Session expired"). Every
    other operation does no validation: the movie, actor and director
    operations, [getGenres], [getGenre], [createGenre] and
    [peopleService.getFilmography] fulfil with [response.data] whatever it
    is; the update and delete operations fulfil with no value, whatever
    the body; and [GenreService.getAllGenres] fulfils with the [name] of
    every element of [response.data.items] (whatever their types), or
    rejects with a [TypeError] when the body is [null], [items] is not an
    array or one of its elements is [null]. *)
Theorem C4_validation_by_operation (w : world) (r : response)
    (id pn ps : Z) (sid query : string) (body : json)
    (sparams : MovieSearchParams) (pparams : list (string * string)) :
  w_isConnected w = Some true ->
  (forall c, w_server w c = Some r) ->
  validateStatus (status r) = true ->
  (* validated *)
  snd (getPopularPeople w) = parse_outcome (ZArray PopularActorSchema) (data r) /\
  snd (getPersonDetails sid w) = parse_outcome PersonSchema (data r) /\
  snd (searchPeople pparams w) = parse_outcome PaginatedPeopleSchema (data r) /\
  snd (createPerson body w) = parse_outcome PersonSchema (data r) /\
  snd (updatePerson sid body w) = parse_outcome PersonSchema (data r) /\
  snd (getPopularGenres w) = parse_outcome (ZArray PopularGenreSchema) (data r) /\
  (* the body as it came *)
  snd (getMovies pn ps w) = Fulfilled (data r) /\
  snd (getMovie id w) = Fulfilled (data r) /\
  snd (createMovie body w) = Fulfilled (data r) /\
  snd (getMoviesByActor id pn ps w) = Fulfilled (data r) /\
  snd (getMoviesByGenre id pn ps w) = Fulfilled (data r) /\
  snd (searchMovies sparams w) = Fulfilled (data r) /\
  snd (getActors pn ps w) = Fulfilled (data r) /\
  snd (getActor id w) = Fulfilled (data r) /\
  snd (createActor body w) = Fulfilled (data r) /\
  snd (searchActors query pn ps w) = Fulfilled (data r) /\
  snd (getActorMovies id pn ps w) = Fulfilled (data r) /\
  snd (getDirectors pn ps w) = Fulfilled (data r) /\
  snd (getDirector id w) = Fulfilled (data r) /\
  snd (createDirector body w) = Fulfilled (data r) /\
  snd (searchDirectors query pn ps w) = Fulfilled (data r) /\
  snd (getGenres pn ps w) = Fulfilled (data r) /\
  snd (getGenre sid w) = Fulfilled (data r) /\
  snd (createGenre body w) = Fulfilled (data r) /\
  snd (getFilmography sid w) = Fulfilled (data r) /\
  (* no value *)
  snd (updateMovie id body w) = Fulfilled tt /\
  snd (deleteMovie id w) = Fulfilled tt /\
  snd (updateActor id body w) = Fulfilled tt /\
  snd (deleteActor id w) = Fulfilled tt /\
  snd (updateDirector id body w) = Fulfilled tt /\
  snd (deleteDirector id w) = Fulfilled tt /\
  snd (updateGenre sid body w) = Fulfilled tt /\
  snd (deleteGenre sid w) = Fulfilled tt /\
  snd (deletePerson sid w) = Fulfilled tt /\
  (* the names of the items *)
  snd (getAllGenres w) =
    match json_get "items" (data r) with
    | Some (JArr gs) =>
        if forallb (fun g => match g with JNull => false | _ => true end) gs
        then Fulfilled (List.map (json_get "name") gs)
        else Rejected (JsError "TypeError")
    | _ => Rejected (JsError "TypeError")
    end.
Proof.
  intros Hconn Hsrv Hok.
  unfold getPopularPeople, getPersonDetails, searchPeople, createPerson, updatePerson,
    getPopularGenres, getMovies, getMovie, createMovie, getMoviesByActor,
    getMoviesByGenre, searchMovies, getActors, getActor, createActor, searchActors,
    getActorMovies, getDirectors, getDirector, createDirector, searchDirectors,
    getGenres, getGenre, createGenre, getFilmography, updateMovie, deleteMovie,
    updateActor, deleteActor, updateDirector, deleteDirector, updateGenre,
    deleteGenre, deletePerson, getAllGenres, catch_, then_, bind, resolve.
  answer_requests w r Hconn Hsrv Hok.
  rewrite !schema_parse_outcome.
  repeat split; cbn -[parse_outcome genre_names];
    try (destruct (parse_outcome _ _); reflexivity).
  unfold get_prop.
  destruct (data r) as [| | | | |kvs]; cbn; try reflexivity.
  destruct (assoc_get "items" kvs) as [[| | | |gs|]|]; cbn; try reflexivity.
  rewrite genre_names_outcome. reflexivity.
Qed.

Lemma C4_validation_by_operation_witness :
  let w := test_world (Some true) ∅ (answer ok_response) in
  w_isConnected w = Some true /\
  snd (getMovies 1 10 w) = Fulfilled JNull /\
  snd (getPersonDetails "7" w) = Rejected (ZodError JNull) /\
  snd (getAllGenres w) = Rejected (JsError "TypeError").
Proof.
  cbv zeta. split; [reflexivity|].
  destruct (C4_validation_by_operation (test_world (Some true) ∅ (answer ok_response))
              ok_response 1 1 10 "7" "" JNull
              {| searchTerm := None; pageNumber := None; pageSize := None; sortBy := None;
                 sortOrder := None; releaseYear := None; genreIds := None |} [])
    as [_ [H2 [_ [_ [_ [_ [H7 H]]]]]]]; [reflexivity | intros c; reflexivity | reflexivity |].
  split; [exact H7|]. split; [rewrite H2; reflexivity|].
  repeat match type of H with _ /\ _ => destruct H as [_ H] end.
  rewrite H. reflexivity.
Defined.

(** ** C5 *)

Lemma zparse_array_any (xs : list json) :
  zparse (ZArray ZAny) (Some (JArr xs)) = Some (Some (JArr xs)).
Proof.
  induction xs as [|x xs IH]; [reflexivity|].
  cbn in IH |- *.
  match type of IH with
  | context [match ?t with Some _ => _ | None => _ end] => destruct t eqn:E
  end; [|discriminate].
  injection IH as ->. reflexivity.
Qed.

(** C5 as stated fails: a page with [totalCount = 5], [pageSize = 2] and
    [totalPages = 1] passes [PaginationSchema] (and [MovieResponseSchema])
    and is returned by [getMovies] as it came, although
    [ceil(5 / 2) = 3]. *)
Lemma C5_inconsistent_page_counterexample :
  zparse PaginationSchema (Some inconsistent_page) = Some (Some inconsistent_page) /\
  zparse MovieResponseSchema (Some inconsistent_page) = Some (Some inconsistent_page) /\
  snd (getMovies 1 2 (test_world (Some true) ∅
         (answer {| status := 200; data := inconsistent_page |})))
    = Fulfilled inconsistent_page /\
  ~ page_invariant inconsistent_page.
Proof.
  split; [vm_compute; reflexivity|]. split; [vm_compute; reflexivity|].
  split; [vm_compute; reflexivity|].
  unfold page_invariant, inconsistent_page. cbn. intros [H _]. discriminate.
Qed.

(** Claim C5 (corrected): the client neither checks nor establishes
    [totalPages = ceil(totalCount / pageSize)] or
    [hasNext = (pageNumber < totalPages)]. Every paginated list operation
    of the movie, actor, director and genre services returns the server's
    body as it came, with no check at all; and [PaginationSchema], which no
    operation applies, constrains field types only: it accepts every page
    object whose fields have the declared types, whatever the numbers. *)
Theorem C5_pagination_unchecked (w : world) (r : response) (id pn ps : Z)
    (query : string) (sparams : MovieSearchParams) :
  w_isConnected w = Some true ->
  (forall c, w_server w c = Some r) ->
  validateStatus (status r) = true ->
  snd (getMovies pn ps w) = Fulfilled (data r) /\
  snd (getMoviesByActor id pn ps w) = Fulfilled (data r) /\
  snd (getMoviesByGenre id pn ps w) = Fulfilled (data r) /\
  snd (searchMovies sparams w) = Fulfilled (data r) /\
  snd (getActors pn ps w) = Fulfilled (data r) /\
  snd (searchActors query pn ps w) = Fulfilled (data r) /\
  snd (getActorMovies id pn ps w) = Fulfilled (data r) /\
  snd (getDirectors pn ps w) = Fulfilled (data r) /\
  snd (searchDirectors query pn ps w) = Fulfilled (data r) /\
  snd (getGenres pn ps w) = Fulfilled (data r) /\
  (forall (items : list json) (tc pn' ps' tp : Z) (hp hn : bool),
     zparse PaginationSchema (Some (page_obj items tc pn' ps' tp hp hn))
     = Some (Some (page_obj items tc pn' ps' tp hp hn))).
Proof.
  intros Hconn Hsrv Hok.
  unfold getMovies, getMoviesByActor, getMoviesByGenre, searchMovies, getActors,
    searchActors, getActorMovies, getDirectors, searchDirectors, getGenres, bind, resolve.
  answer_requests w r Hconn Hsrv Hok.
  repeat split; try reflexivity.
  intros items tc pn' ps' tp hp hn.
  pose proof (zparse_array_any items) as H.
  unfold PaginationSchema, page_obj. cbn in H |- *.
  rewrite H. reflexivity.
Qed.

Lemma C5_pagination_unchecked_witness :
  let w := test_world (Some true) ∅ (answer {| status := 200; data := inconsistent_page |}) in
  w_isConnected w = Some true /\
  snd (getMovies 1 2 w) = Fulfilled inconsistent_page.
Proof.
  cbv zeta. split; [reflexivity|].
  destruct (C5_pagination_unchecked
              (test_world (Some true) ∅ (answer {| status := 200; data := inconsistent_page |}))
              {| status := 200; data := inconsistent_page |} 1 1 2 ""
              {| searchTerm := None; pageNumber := None; pageSize := None; sortBy := None;
                 sortOrder := None; releaseYear := None; genreIds := None |})
    as [H _]; [reflexivity | intros c; reflexivity | reflexivity | exact H].
Defined.

(** ** C7 *)




(* ================================================================== *)
(** * Further properties of the code *)

(** ** The auth reducer *)

(** Extra X1: the reducer never shows an error next to a signed-in user:
    in every state reached from [initialState], [error] is [null] or the
    state has [user = null] and [isAuthenticated = false]. *)
Theorem authReducer_error_signed_out (actions : list AuthAction) :
  let s := fold_left authReducer actions initialState in
  error s = None \/ (user s = None /\ isAuthenticated s = false).
Proof.
  cbv zeta.
  assert (H0 : error initialState = None \/
               (user initialState = None /\ isAuthenticated initialState = false))
    by (left; reflexivity).
  revert H0. generalize initialState as s.
  induction actions as [|a rest IH]; intros s Hs; cbn; [exact Hs|].
  apply IH. destruct a; cbn; auto.
Qed.

(** ** Session restore on start-up *)

Ltac unfold_checkAuth :=
  unfold checkAuthStatus, catch_, then_, bind, resolve, reject, AsyncStorage_getItem,
    AsyncStorage_setItem, AsyncStorage_removeItem, dispatch, logout;
  cbv beta iota zeta.

(** Extra X12: with no token stored, or the empty string, start-up
    dispatches [LOGIN_FAILURE 'No stored credentials'] and changes nothing
    else: storage is untouched and no request is sent. *)
Theorem checkAuthStatus_no_token (parse : string -> option User) (w : world) :
  str_truthy (w_storage w !! TOKEN_STORAGE_KEY) = false ->
  checkAuthStatus parse w =
    (set_auth w (authReducer (w_auth w) (LOGIN_FAILURE (JStr "No stored credentials"))),
     Fulfilled tt).
Proof. intros H. unfold_checkAuth. rewrite H. reflexivity. Qed.

Lemma checkAuthStatus_no_token_witness :
  let w := test_world (Some true) (token_store "") (answer ok_response) in
  str_truthy (w_storage w !! TOKEN_STORAGE_KEY) = false /\
  checkAuthStatus no_parse w =
    (set_auth w (authReducer (w_auth w) (LOGIN_FAILURE (JStr "No stored credentials"))),
     Fulfilled tt).
Proof.
  cbv zeta. split; [vm_compute; reflexivity|].
  apply (checkAuthStatus_no_token no_parse
           (test_world (Some true) (token_store "") (answer ok_response))).
  vm_compute. reflexivity.
Defined.

(** Extra X13: with a token stored but no user data (absent or the empty
    string), start-up stores the fallback user [{ username: 'user',
    role: 'user' }] as JSON under ["user_data"] and signs that user in,
    whatever [JSON.parse] would do. *)
Theorem checkAuthStatus_fallback_user (parse : string -> option User) (w : world) :
  str_truthy (w_storage w !! TOKEN_STORAGE_KEY) = true ->
  str_truthy (w_storage w !! USER_DATA_KEY) = false ->
  checkAuthStatus parse w =
    (set_auth (set_storage w (<[USER_DATA_KEY := json_stringify (user_to_json fallback_user)]>
                                (w_storage w)))
       (authReducer (w_auth w) (LOGIN_SUCCESS fallback_user)), Fulfilled tt).
Proof. intros Ht Hu. unfold_checkAuth. rewrite Ht, Hu. reflexivity. Qed.

Lemma checkAuthStatus_fallback_user_witness :
  let w := test_world (Some true) (token_store "abc123") (answer ok_response) in
  str_truthy (w_storage w !! TOKEN_STORAGE_KEY) = true /\
  str_truthy (w_storage w !! USER_DATA_KEY) = false /\
  checkAuthStatus no_parse w =
    (set_auth (set_storage w (<[USER_DATA_KEY := json_stringify (user_to_json fallback_user)]>
                                (w_storage w)))
       (authReducer (w_auth w) (LOGIN_SUCCESS fallback_user)), Fulfilled tt).
Proof.
  cbv zeta. split; [vm_compute; reflexivity|]. split; [vm_compute; reflexivity|].
  apply (checkAuthStatus_fallback_user no_parse
           (test_world (Some true) (token_store "abc123") (answer ok_response)));
    vm_compute; reflexivity.
Defined.

(** Extra X14: with a token and non-empty user data stored, start-up signs
    in the user the data parses to; when [JSON.parse] throws, it removes
    the token (leaving ["user_data"] in place) and dispatches
    [LOGIN_FAILURE 'Session expired']. *)
Theorem checkAuthStatus_stored_user (parse : string -> option User) (w : world) (s : string) :
  str_truthy (w_storage w !! TOKEN_STORAGE_KEY) = true ->
  w_storage w !! USER_DATA_KEY = Some s -> string_truthy s = true ->
  checkAuthStatus parse w =
    match parse s with
    | Some u => (set_auth w (authReducer (w_auth w) (LOGIN_SUCCESS u)), Fulfilled tt)
    | None =>
        (set_auth (set_storage w (delete TOKEN_STORAGE_KEY (w_storage w)))
           (authReducer (w_auth w) (LOGIN_FAILURE (JStr "Session expired"))), Fulfilled tt)
    end.
Proof.
  intros Ht Hu Hs. unfold_checkAuth. rewrite Ht, Hu. cbn [str_truthy opt_str].
  rewrite Hs. destruct (parse s); reflexivity.
Qed.

Lemma checkAuthStatus_stored_user_witness :
  let w := test_world (Some true) (user_store "abc123" "garbage") (answer ok_response) in
  str_truthy (w_storage w !! TOKEN_STORAGE_KEY) = true /\
  w_storage w !! USER_DATA_KEY = Some "garbage"%string /\
  w_storage (fst (checkAuthStatus no_parse w)) = delete TOKEN_STORAGE_KEY (w_storage w).
Proof.
  cbv zeta. split; [vm_compute; reflexivity|]. split; [vm_compute; reflexivity|].
  rewrite (checkAuthStatus_stored_user no_parse
             (test_world (Some true) (user_store "abc123" "garbage") (answer ok_response))
             "garbage"); [reflexivity | vm_compute; reflexivity | vm_compute; reflexivity
                         | reflexivity].
Defined.

(** Extra X15: start-up always settles: its promise fulfils, it sends no
    request, it ends with [isLoading = false], and it leaves the session
    signed in exactly when a non-empty token is stored and the stored
    user data, if non-empty, parses. *)
Theorem checkAuthStatus_settles (parse : string -> option User) (w : world) :
  let out := checkAuthStatus parse w in
  snd out = Fulfilled tt /\
  w_sent (fst out) = w_sent w /\
  isLoading (w_auth (fst out)) = false /\
  (isAuthenticated (w_auth (fst out)) = true <->
   str_truthy (w_storage w !! TOKEN_STORAGE_KEY) = true /\
   forall s, w_storage w !! USER_DATA_KEY = Some s -> string_truthy s = true ->
             parse s <> None).
Proof.
  cbv zeta. unfold_checkAuth.
  destruct (str_truthy (w_storage w !! TOKEN_STORAGE_KEY)) eqn:Ht.
  - destruct (w_storage w !! USER_DATA_KEY) as [s|] eqn:Hu; cbn [str_truthy opt_str].
    + destruct (string_truthy s) eqn:Hs.
      * destruct (parse s) as [u|] eqn:Hp; cbn.
        -- repeat split; try reflexivity. intros s' Hs' _. congruence.
        -- repeat split; try reflexivity; try discriminate.
           intros [_ H]. destruct (H s eq_refl Hs Hp).
      * cbn. repeat split; try reflexivity.
        intros s' Hs' Hs''. congruence.
    + cbn. repeat split; try reflexivity. intros s' Hs'. discriminate.
  - cbn. repeat split; try reflexivity; try discriminate.
    intros [H _]. discriminate.
Qed.

(** ** [register] beyond the token-less case *)

Lemma apiClient_request_offline (w : world) method url params body :
  w_isConnected w <> Some true ->
  apiClient_request method url params body w = (w, Rejected (JsError "No internet connection")).
Proof.
  intros Hoff. unfold_client.
  destruct (w_isConnected w) as [[|]|]; [congruence | reflexivity | reflexivity].
Qed.

(** What [register] does once the register call succeeds with a
    non-empty string [token]. *)
Lemma register_string_token (setItem_nonstring : string -> json -> promise unit)
    (w : world) (r : response) (u e p t : string) :
  w_isConnected w = Some true ->
  (forall c, w_server w c = Some r) ->
  validateStatus (status r) = true ->
  json_get "token" (data r) = Some (JStr t) -> t <> ""%string ->
  let out := register setItem_nonstring u e p w in
  let usr := {| username := js_or (json_get "username" (data r)) (JStr u);
                role := js_or (json_get "role" (data r)) (JStr "user") |} in
  snd out = Fulfilled true /\
  w_storage (fst out) =
    <[USER_DATA_KEY := json_stringify (user_to_json usr)]>
      (<[TOKEN_STORAGE_KEY := t]> (w_storage w)) /\
  w_auth (fst out) =
    authReducer (authReducer (w_auth w) REGISTER_REQUEST) (REGISTER_SUCCESS usr) /\
  w_isConnected (fst out) = w_isConnected w.
Proof.
  intros Hconn Hsrv Hok Ht Hne out usr. subst out usr.
  assert (Htr : string_truthy t = true).
  { unfold string_truthy. apply negb_true_iff. now apply String.eqb_neq. }
  unfold register, catch_, then_, bind, dispatch. cbv beta iota zeta.
  destruct (apiClient_request_ok (set_auth w (authReducer (w_auth w) REGISTER_REQUEST))
              r "post" API_REGISTER []
              (Some (JObj [("username", JStr u); ("email", JStr e);
                           ("password", JStr p); ("confirmPassword", JStr p)])))
    as [c Hc]; [exact Hconn | exact Hsrv | exact Hok |].
  rewrite Hc. unfold get_prop.
  destruct (data r) as [| | | | |kvs]; cbn in Ht; try discriminate.
  cbn in Ht |- *. rewrite Ht. cbn. rewrite Htr.
  unfold setItem_token, AsyncStorage_setItem. cbn.
  repeat split; reflexivity.
Qed.

(** Extra X2: when the register call succeeds and the body carries a
    non-empty string [token], [register] stores that string as it is under
    the token key and [JSON.stringify] of the user object under
    ["user_data"], signs the user in and returns [true]. *)
Theorem register_stores_session (setItem_nonstring : string -> json -> promise unit)
    (w : world) (r : response) (u e p t : string) :
  w_isConnected w = Some true ->
  (forall c, w_server w c = Some r) ->
  validateStatus (status r) = true ->
  json_get "token" (data r) = Some (JStr t) -> t <> ""%string ->
  let out := register setItem_nonstring u e p w in
  let usr := {| username := js_or (json_get "username" (data r)) (JStr u);
                role := js_or (json_get "role" (data r)) (JStr "user") |} in
  snd out = Fulfilled true /\
  w_storage (fst out) =
    <[USER_DATA_KEY := json_stringify (user_to_json usr)]>
      (<[TOKEN_STORAGE_KEY := t]> (w_storage w)) /\
  isAuthenticated (w_auth (fst out)) = true /\
  user (w_auth (fst out)) = Some usr.
Proof.
  intros Hconn Hsrv Hok Ht Hne out usr.
  destruct (register_string_token setItem_nonstring w r u e p t Hconn Hsrv Hok Ht Hne)
    as [H1 [H2 [H3 _]]].
  subst out usr. rewrite H3.
  repeat split; assumption || reflexivity.
Qed.

Lemma register_stores_session_witness :
  let w := test_world (Some true) ∅ (answer (token_response "tok")) in
  w_isConnected w = Some true /\
  snd (register setItem_ignored "alice" "a@example.org" "secret" w) = Fulfilled true /\
  w_storage (fst (register setItem_ignored "alice" "a@example.org" "secret" w))
    !! TOKEN_STORAGE_KEY = Some "tok"%string.
Proof.
  cbv zeta. split; [reflexivity|].
  destruct (register_stores_session setItem_ignored
              (test_world (Some true) ∅ (answer (token_response "tok")))
              (token_response "tok") "alice" "a@example.org" "secret" "tok")
    as [H1 [H2 _]]; [reflexivity | intros c; reflexivity | reflexivity | reflexivity
                    | discriminate |].
  split; [exact H1|]. rewrite H2. vm_compute. reflexivity.
Defined.

(** Extra X3: when the server rejects the register call with a status
    other than 401, [register] dispatches [REGISTER_FAILURE] with
    [error.response.data.message || 'Registration failed'], rejects with an
    [Error] carrying that message, and leaves storage untouched. *)
Theorem register_server_error (setItem_nonstring : string -> json -> promise unit)
    (w : world) (r : response) (u e p : string) :
  w_isConnected w = Some true ->
  (forall c, w_server w c = Some r) ->
  validateStatus (status r) = false -> status r <> 401 ->
  let msg := js_or (json_get "message" (data r)) (JStr "Registration failed") in
  let out := register setItem_nonstring u e p w in
  snd out = Rejected (JsError (js_String msg)) /\
  w_storage (fst out) = w_storage w /\
  w_auth (fst out) =
    authReducer (authReducer (w_auth w) REGISTER_REQUEST) (REGISTER_FAILURE msg) /\
  isAuthenticated (w_auth (fst out)) = false.
Proof.
  intros Hconn Hsrv Hbad H401 msg out. subst msg out.
  unfold register, catch_, then_, bind, dispatch. cbv beta iota zeta.
  assert (Hsrv' : forall c, w_server (set_auth w (authReducer (w_auth w) REGISTER_REQUEST)) c
                           = Some r) by exact Hsrv.
  rewrite (apiClient_request_connected (set_auth w (authReducer (w_auth w) REGISTER_REQUEST))
             "post" API_REGISTER [] _ Hconn), Hsrv', Hbad.
  rewrite bool_decide_eq_false_2 by congruence.
  cbn. repeat split; reflexivity.
Qed.

Lemma register_server_error_witness :
  let w := test_world (Some true) ∅ (answer (error_response 400 "Username taken")) in
  w_isConnected w = Some true /\
  snd (register setItem_ignored "alice" "a@example.org" "secret" w) = Rejected (JsError "Username taken").
Proof.
  cbv zeta. split; [reflexivity|].
  destruct (register_server_error setItem_ignored
              (test_world (Some true) ∅ (answer (error_response 400 "Username taken")))
              (error_response 400 "Username taken") "alice" "a@example.org" "secret")
    as [H1 _]; [reflexivity | intros c; reflexivity | reflexivity | discriminate |].
  exact H1.
Defined.

(** Extra X4: when the server answers the register call with 401, the
    client's response interceptor removes the stored token and replaces the
    error, so [register] rejects with 'Registration failed' whatever
    message the server sent, and records that message as the auth error. *)
Theorem register_unauthorized (setItem_nonstring : string -> json -> promise unit)
    (w : world) (r : response) (u e p : string) :
  w_isConnected w = Some true ->
  (forall c, w_server w c = Some r) ->
  status r = 401 ->
  let out := register setItem_nonstring u e p w in
  snd out = Rejected (JsError "Registration failed") /\
  w_storage (fst out) = delete TOKEN_STORAGE_KEY (w_storage w) /\
  w_auth (fst out) =
    authReducer (authReducer (w_auth w) REGISTER_REQUEST)
      (REGISTER_FAILURE (JStr "Registration failed")).
Proof.
  intros Hconn Hsrv H401 out. subst out.
  unfold register, catch_, then_, bind, dispatch. cbv beta iota zeta.
  assert (Hsrv' : forall c, w_server (set_auth w (authReducer (w_auth w) REGISTER_REQUEST)) c
                           = Some r) by exact Hsrv.
  rewrite (apiClient_request_connected (set_auth w (authReducer (w_auth w) REGISTER_REQUEST))
             "post" API_REGISTER [] _ Hconn), Hsrv', H401.
  cbn. rewrite bool_decide_eq_true_2 by reflexivity.
  cbn. repeat split; reflexivity.
Qed.

Lemma register_unauthorized_witness :
  let w := test_world (Some true) (token_store "old") (answer (error_response 401 "Bad request")) in
  w_isConnected w = Some true /\
  snd (register setItem_ignored "alice" "a@example.org" "secret" w) = Rejected (JsError "Registration failed").
Proof.
  cbv zeta. split; [reflexivity|].
  destruct (register_unauthorized setItem_ignored
              (test_world (Some true) (token_store "old") (answer (error_response 401 "Bad request")))
              (error_response 401 "Bad request") "alice" "a@example.org" "secret")
    as [H1 _]; [reflexivity | intros c; reflexivity | reflexivity |].
  exact H1.
Defined.

(** Extra X5: offline, [register] sends nothing, leaves storage untouched,
    dispatches [REGISTER_FAILURE 'Registration failed'] and rejects with
    'Registration failed' (the connectivity error carries no response). *)
Theorem register_offline (setItem_nonstring : string -> json -> promise unit)
    (w : world) (u e p : string) :
  w_isConnected w <> Some true ->
  register setItem_nonstring u e p w =
    (set_auth w (authReducer (authReducer (w_auth w) REGISTER_REQUEST)
                   (REGISTER_FAILURE (JStr "Registration failed"))),
     Rejected (JsError "Registration failed")).
Proof.
  intros Hoff.
  unfold register, catch_, then_, bind, dispatch. cbv beta iota zeta.
  rewrite apiClient_request_offline by exact Hoff. reflexivity.
Qed.

Lemma register_offline_witness :
  let w := test_world None (token_store "abc123") (answer ok_response) in
  w_isConnected w <> Some true /\
  register setItem_ignored "alice" "a@example.org" "secret" w =
    (set_auth w (authReducer (authReducer (w_auth w) REGISTER_REQUEST)
                   (REGISTER_FAILURE (JStr "Registration failed"))),
     Rejected (JsError "Registration failed")).
Proof.
  cbv zeta. split; [discriminate|].
  apply (register_offline setItem_ignored (test_world None (token_store "abc123") (answer ok_response))).
  discriminate.
Defined.

(** ** One call through the shared client *)

Lemma assoc_get_set_header_ne (k k' v : string) (hs : list (string * string)) :
  k <> k' -> assoc_get k (set_header k' v hs) = assoc_get k hs.
Proof.
  intros Hne. induction hs as [|[k0 v0] rest IH]; cbn.
  - apply String.eqb_neq in Hne. now rewrite Hne.
  - destruct (String.eqb k' k0) eqn:E; cbn.
    + apply String.eqb_eq in E. subst k0.
      apply String.eqb_neq in Hne. now rewrite Hne.
    + now rewrite IH.
Qed.

(** The request a connected call puts on the wire: the adapter's copy of
    the config the interceptor completed. *)
Lemma apiClient_request_sends (w : world) method url params body :
  w_isConnected w = Some true ->
  exists c,
    w_sent (fst (apiClient_request method url params body w)) = xhr_request c :: w_sent w /\
    rc_method c = method /\ rc_url c = url /\ rc_params c = params /\ rc_data c = body /\
    rc_headers c =
      match authorization_of (w_storage w !! TOKEN_STORAGE_KEY) with
      | Some h => set_header "Authorization" h (default_headers (w_platform w))
      | None => default_headers (w_platform w)
      end.
Proof.
  intros Hconn. rewrite (apiClient_request_connected w method url params body Hconn).
  set (c0 := mk_config (w_platform w) method url params body).
  set (c := match authorization_of (w_storage w !! TOKEN_STORAGE_KEY) with
            | Some h => with_headers c0 (set_header "Authorization" h (rc_headers c0))
            | None => c0
            end).
  exists c. split.
  - destruct (w_server w (xhr_request c)) as [r|]; [|reflexivity].
    destruct (validateStatus (status r)); [reflexivity|].
    destruct (bool_decide _); reflexivity.
  - subst c c0. destruct (authorization_of _); repeat split; reflexivity.
Qed.

(** The [Authorization] header of the request a connected call puts on
    the wire. *)
Lemma apiClient_request_sends_authorization (w : world) method url params body :
  w_isConnected w = Some true ->
  exists c,
    w_sent (fst (apiClient_request method url params body w)) = c :: w_sent w /\
    assoc_get "Authorization" (rc_headers c) =
      authorization_of (w_storage w !! TOKEN_STORAGE_KEY).
Proof.
  intros Hconn.
  destruct (apiClient_request_sends w method url params body Hconn)
    as [c [Hs [_ [_ [_ [_ Hh]]]]]].
  exists (xhr_request c). split; [exact Hs|].
  rewrite xhr_request_header_ne by discriminate. rewrite Hh.
  destruct (authorization_of _).
  - apply assoc_get_set_header_eq.
  - apply no_default_authorization.
Qed.

(** Extra X6: one call through the shared client changes the device in
    one of three ways only: offline, not at all; otherwise it puts exactly
    one request on the wire (there is no retry) and, only when the server
    answers that request with 401, also deletes the stored token. No other
    storage key, and neither the connectivity nor the auth state, is
    touched. *)
Theorem apiClient_request_world_effect (w : world) method url params body :
  let out := apiClient_request method url params body w in
  (w_isConnected w <> Some true /\ fst out = w) \/
  (w_isConnected w = Some true /\
   exists c,
     (fst out = set_sent w (c :: w_sent w) /\
      forall r, w_server w c = Some r -> status r <> 401) \/
     (exists r, w_server w c = Some r /\ status r = 401 /\
        fst out = set_storage (set_sent w (c :: w_sent w))
                    (delete TOKEN_STORAGE_KEY (w_storage w)))).
Proof.
  cbv zeta.
  destruct (w_isConnected w) as [[|]|] eqn:Hc;
    [| left; split; [congruence | rewrite apiClient_request_offline by congruence;
                                  reflexivity] ..].
  right. split; [reflexivity|].
  rewrite (apiClient_request_connected w method url params body Hc).
  set (c := match authorization_of (w_storage w !! TOKEN_STORAGE_KEY) with
            | Some h => with_headers (mk_config (w_platform w) method url params body)
                          (set_header "Authorization" h
                             (rc_headers (mk_config (w_platform w) method url params body)))
            | None => mk_config (w_platform w) method url params body
            end).
  exists (xhr_request c).
  destruct (w_server w (xhr_request c)) as [r|] eqn:Hr.
  - destruct (validateStatus (status r)) eqn:Hv.
    + left. split; [reflexivity|]. intros r' Hr'. injection Hr' as <-.
      unfold validateStatus in Hv. apply andb_prop in Hv as [H1 H2].
      apply Z.leb_le in H1. apply Z.ltb_lt in H2. lia.
    + destruct (bool_decide (Some (status r) = Some 401)) eqn:Hb.
      * right. apply bool_decide_eq_true_1 in Hb. injection Hb as Hb.
        exists r. repeat split; assumption || reflexivity.
      * left. split; [reflexivity|]. intros r' Hr'.
        injection Hr' as <-. apply bool_decide_eq_false_1 in Hb. congruence.
  - left. split; [reflexivity|]. intros r' Hr'. discriminate.
Qed.

(** Extra X7: the request a connected call puts on the wire has the
    caller's method, URL, params and body, and the instance's default
    headers [Accept: application/json] and [Platform: <Platform.OS>];
    it carries [Content-Type: application/json] exactly when it has a
    body, since the XHR adapter drops that header from a body-less
    request. *)
Theorem apiClient_request_sent_config (w : world) method url params body :
  w_isConnected w = Some true ->
  exists c,
    w_sent (fst (apiClient_request method url params body w)) = c :: w_sent w /\
    rc_method c = method /\ rc_url c = url /\ rc_params c = params /\ rc_data c = body /\
    assoc_get "Content-Type" (rc_headers c) =
      match body with
      | Some _ => Some "application/json"%string
      | None => None
      end /\
    assoc_get "Accept" (rc_headers c) = Some "application/json"%string /\
    assoc_get "Platform" (rc_headers c) = Some (w_platform w).
Proof.
  intros Hconn.
  destruct (apiClient_request_sends w method url params body Hconn)
    as [c [Hs [Hm [Hu [Hp [Hb Hh]]]]]].
  destruct (xhr_request_fields c) as [Hm' [Hu' [Hp' Hb']]].
  exists (xhr_request c). split; [exact Hs|].
  rewrite Hm', Hu', Hp', Hb', xhr_request_content_type,
    !xhr_request_header_ne by discriminate.
  rewrite Hb. repeat split; try assumption; rewrite Hh;
    destruct (authorization_of _);
    try (rewrite assoc_get_set_header_ne by discriminate);
    try reflexivity; destruct body; reflexivity.
Qed.

Lemma apiClient_request_sent_config_witness :
  w_isConnected (test_world (Some true) (token_store "abc123") (answer ok_response)) = Some true /\
  exists c,
    w_sent (fst (apiClient_request "get" API_MOVIES [("version", "v1")] None
                   (test_world (Some true) (token_store "abc123") (answer ok_response))))
      = c :: [] /\
    rc_method c = "get"%string /\ rc_url c = API_MOVIES /\
    rc_params c = [("version", "v1")]%string /\ rc_data c = None /\
    assoc_get "Content-Type" (rc_headers c) = None /\
    assoc_get "Accept" (rc_headers c) = Some "application/json"%string /\
    assoc_get "Platform" (rc_headers c) = Some "ios"%string.
Proof.
  split; [reflexivity|].
  apply (apiClient_request_sent_config
           (test_world (Some true) (token_store "abc123") (answer ok_response))
           "get" API_MOVIES [("version", "v1")]%string None).
  reflexivity.
Defined.

(** ** What the next request carries *)

(** Extra X16: after a call the server answered with 401, the token key is
    empty and the next request the client sends carries no
    [Authorization] header. *)
Theorem next_request_after_401 (w : world) (r : response) m1 u1 p1 b1 m2 u2 p2 b2 :
  w_isConnected w = Some true ->
  (forall c, w_server w c = Some r) ->
  status r = 401 ->
  let w1 := fst (apiClient_request m1 u1 p1 b1 w) in
  w_storage w1 !! TOKEN_STORAGE_KEY = None /\
  exists c,
    w_sent (fst (apiClient_request m2 u2 p2 b2 w1)) = c :: w_sent w1 /\
    assoc_get "Authorization" (rc_headers c) = None.
Proof.
  intros Hconn Hsrv H401 w1.
  assert (Hst : w_storage w1 !! TOKEN_STORAGE_KEY = None).
  { subst w1. rewrite (apiClient_request_connected w m1 u1 p1 b1 Hconn), Hsrv, H401.
    cbn. rewrite bool_decide_eq_true_2 by reflexivity. apply lookup_delete_eq. }
  assert (Hc1 : w_isConnected w1 = Some true).
  { subst w1. rewrite (apiClient_request_connected w m1 u1 p1 b1 Hconn), Hsrv, H401.
    cbn. rewrite bool_decide_eq_true_2 by reflexivity. exact Hconn. }
  split; [exact Hst|].
  destruct (apiClient_request_sends_authorization w1 m2 u2 p2 b2 Hc1) as [c [Hs Hh]].
  exists c. split; [exact Hs|]. rewrite Hh, Hst. reflexivity.
Qed.

Lemma next_request_after_401_witness :
  let w := test_world (Some true) (token_store "abc123") (answer (error_response 401 "expired")) in
  w_isConnected w = Some true /\
  w_storage (fst (apiClient_request "get" API_MOVIES [] None w)) !! TOKEN_STORAGE_KEY = None.
Proof.
  cbv zeta. split; [reflexivity|].
  destruct (next_request_after_401
              (test_world (Some true) (token_store "abc123")
                 (answer (error_response 401 "expired")))
              (error_response 401 "expired") "get" API_MOVIES [] None
              "get" API_MOVIES [] None) as [H _];
    [reflexivity | intros c; reflexivity | reflexivity | exact H].
Defined.

(** Extra X17: after [logoutUser] the session is signed out and the next
    request the client sends carries no [Authorization] header. *)
Theorem next_request_after_logoutUser (w : world) method url params body :
  w_isConnected w = Some true ->
  let w1 := fst (logoutUser w) in
  isAuthenticated (w_auth w1) = false /\ user (w_auth w1) = None /\
  exists c,
    w_sent (fst (apiClient_request method url params body w1)) = c :: w_sent w1 /\
    assoc_get "Authorization" (rc_headers c) = None.
Proof.
  intros Hconn w1.
  assert (Hst : w_storage w1 !! TOKEN_STORAGE_KEY = None).
  { subst w1. unfold logoutUser, logout, dispatch, bind, AsyncStorage_removeItem; cbn.
    rewrite lookup_delete_ne by discriminate. apply lookup_delete_eq. }
  assert (Hc1 : w_isConnected w1 = Some true) by exact Hconn.
  split; [reflexivity|]. split; [reflexivity|].
  destruct (apiClient_request_sends_authorization w1 method url params body Hc1)
    as [c [Hs Hh]].
  exists c. split; [exact Hs|]. rewrite Hh, Hst. reflexivity.
Qed.

Lemma next_request_after_logoutUser_witness :
  let w := test_world (Some true) (user_store "abc123" "{}") (answer ok_response) in
  w_isConnected w = Some true /\
  exists c,
    w_sent (fst (apiClient_request "get" API_MOVIES [] None (fst (logoutUser w)))) = [c] /\
    assoc_get "Authorization" (rc_headers c) = None.
Proof.
  cbv zeta. split; [reflexivity|].
  destruct (next_request_after_logoutUser
              (test_world (Some true) (user_store "abc123" "{}") (answer ok_response))
              "get" API_MOVIES [] None) as [_ [_ H]]; [reflexivity | exact H].
Defined.

(** Extra X18: after [register] succeeds with a non-empty string [token],
    the next request the client sends carries
    [Authorization: Bearer <token>]. *)
Theorem next_request_after_register (setItem_nonstring : string -> json -> promise unit)
    (w : world) (r : response) (u e p t : string) method url params body :
  w_isConnected w = Some true ->
  (forall c, w_server w c = Some r) ->
  validateStatus (status r) = true ->
  json_get "token" (data r) = Some (JStr t) -> t <> ""%string ->
  let w1 := fst (register setItem_nonstring u e p w) in
  exists c,
    w_sent (fst (apiClient_request method url params body w1)) = c :: w_sent w1 /\
    assoc_get "Authorization" (rc_headers c) = Some ("Bearer " ++ t)%string.
Proof.
  intros Hconn Hsrv Hok Ht Hne w1.
  destruct (register_string_token setItem_nonstring w r u e p t Hconn Hsrv Hok Ht Hne)
    as [_ [Hst [_ Hc]]].
  assert (Htr : string_truthy t = true).
  { unfold string_truthy. apply negb_true_iff. now apply String.eqb_neq. }
  assert (Hlk : w_storage w1 !! TOKEN_STORAGE_KEY = Some t).
  { subst w1. rewrite Hst. rewrite lookup_insert_ne by discriminate.
    apply lookup_insert_eq. }
  assert (Hc1 : w_isConnected w1 = Some true) by (subst w1; rewrite Hc; exact Hconn).
  destruct (apiClient_request_sends_authorization w1 method url params body Hc1)
    as [c [Hs Hh]].
  exists c. split; [exact Hs|]. rewrite Hh, Hlk. cbn [authorization_of]. rewrite Htr.
  reflexivity.
Qed.

Lemma next_request_after_register_witness :
  let w := test_world (Some true) ∅ (answer (token_response "tok")) in
  w_isConnected w = Some true /\
  exists c,
    w_sent (fst (apiClient_request "get" API_MOVIES [] None
                   (fst (register setItem_ignored "alice" "a@example.org" "secret" w))))
      = c :: w_sent (fst (register setItem_ignored "alice" "a@example.org" "secret" w)) /\
    assoc_get "Authorization" (rc_headers c) = Some "Bearer tok"%string.
Proof.
  cbv zeta. split; [reflexivity|].
  apply (next_request_after_register setItem_ignored (test_world (Some true) ∅ (answer (token_response "tok")))
           (token_response "tok") "alice" "a@example.org" "secret" "tok"
           "get" API_MOVIES [] None);
    [reflexivity | intros c; reflexivity | reflexivity | reflexivity | discriminate].
Defined.

(** ** The query [searchMovies] builds, read back *)

Lemma qs_getAll_app (q1 q2 : URLSearchParams) (k : string) :
  qs_getAll (q1 ++ q2) k = qs_getAll q1 k ++ qs_getAll q2 k.
Proof. unfold qs_getAll. now rewrite List.filter_app, List.map_app. Qed.

Lemma qs_getAll_genre_pairs (ids : list Z) (k : string) :
  k <> "GenreIds"%string -> qs_getAll (genre_pairs ids) k = [].
Proof.
  intros Hk. unfold qs_getAll, genre_pairs.
  induction ids as [|g rest IH]; [reflexivity|].
  cbn [List.map List.filter fst].
  destruct (String.eqb "GenreIds" k) eqn:E.
  - apply String.eqb_eq in E. congruence.
  - exact IH.
Qed.

Lemma num_or_spec (n : option Z) (d : Z) :
  num_or n d = match n with Some k => if Z.eqb k 0 then d else k | None => d end.
Proof. unfold num_or. destruct n as [k|]; [destruct (Z.eqb k 0)|]; reflexivity. Qed.

(** Extra X8: the query of [searchMovies] holds exactly one [PageNumber]
    (the given page, or 1 when it is missing or 0), one [PageSize]
    (default 10 likewise) and one [version=v1]; [SearchTerm], [SortBy] and
    [SortOrder] once when given non-empty and not at all otherwise;
    [ReleaseYear] once when given and non-zero; and no parameter besides
    these and [GenreIds]. *)
Theorem search_query_params (params : MovieSearchParams) :
  let q := search_query params in
  qs_getAll q "PageNumber" =
    [Z_to_string (match pageNumber params with
                  | Some n => if Z.eqb n 0 then 1 else n | None => 1 end)] /\
  qs_getAll q "PageSize" =
    [Z_to_string (match pageSize params with
                  | Some n => if Z.eqb n 0 then 10 else n | None => 10 end)] /\
  qs_getAll q "version" = ["v1"%string] /\
  qs_getAll q "SearchTerm" =
    match searchTerm params with
    | Some t => if String.eqb t "" then [] else [t] | None => [] end /\
  qs_getAll q "SortBy" =
    match sortBy params with
    | Some t => if String.eqb t "" then [] else [t] | None => [] end /\
  qs_getAll q "SortOrder" =
    match sortOrder params with
    | Some t => if String.eqb t "" then [] else [t] | None => [] end /\
  qs_getAll q "ReleaseYear" =
    match releaseYear params with
    | Some y => if Z.eqb y 0 then [] else [Z_to_string y] | None => [] end /\
  Forall (fun kv => In (fst kv) search_keys) q.
Proof.
  cbv zeta. rewrite search_query_shape.
  assert (Hg : forall k, k <> "GenreIds"%string ->
            qs_getAll (match genreIds params with
                       | Some ids => genre_pairs ids | None => [] end) k = []).
  { intros k Hk. destruct (genreIds params); [now apply qs_getAll_genre_pairs | reflexivity]. }
  rewrite !qs_getAll_app, !Hg by discriminate. rewrite !app_nil_r.
  rewrite <- (num_or_spec (pageNumber params) 1), <- (num_or_spec (pageSize params) 10).
  assert (Hgk : Forall (fun kv => In (fst kv) search_keys)
                  (match genreIds params with
                   | Some ids => genre_pairs ids | None => [] end)).
  { destruct (genreIds params) as [ids|]; [|constructor].
    apply List.Forall_forall. intros kv Hin. unfold genre_pairs in Hin.
    apply in_map_iff in Hin as [g [<- _]]. cbn. tauto. }
  unfold search_base_query, qs_append, str_truthy, num_truthy, string_truthy, opt_str.
  destruct (searchTerm params) as [[|c1 t1]|], (sortBy params) as [[|c2 t2]|],
    (sortOrder params) as [[|c3 t3]|], (releaseYear params) as [y|];
    try destruct (Z.eqb y 0) eqn:Hy;
    cbn -[Z_to_string num_or];
    repeat split; try reflexivity; try (unfold num_or; rewrite Hy; reflexivity);
    repeat (constructor; [cbn; tauto|]); exact Hgk.
Qed.

(** Reading a query string back. *)

Lemma hex_digit_value (k : nat) : (k < 16)%nat -> hex_value (hex_digit k) = Some k.
Proof. intros Hk. do 16 (destruct k as [|k]; [reflexivity|]). lia. Qed.

Lemma hex_digit_unreserved (k : nat) : (k < 16)%nat -> form_unreserved (hex_digit k) = true.
Proof. intros Hk. do 16 (destruct k as [|k]; [reflexivity|]). lia. Qed.

Lemma form_decode_encode (s : string) : form_decode (form_encode s) = s.
Proof.
  induction s as [|c rest IH]; [reflexivity|].
  cbn [form_encode].
  destruct (form_unreserved c) eqn:Hu.
  - cbn [form_decode].
    destruct (Ascii.eqb c "+"%char) eqn:E1.
    { apply Ascii.eqb_eq in E1. subst c. discriminate Hu. }
    destruct (Ascii.eqb c "%"%char) eqn:E2.
    { apply Ascii.eqb_eq in E2. subst c. discriminate Hu. }
    now rewrite IH.
  - destruct (nat_of_ascii c =? 32)%nat eqn:Hsp.
    + cbn [form_decode]. rewrite IH.
      apply Nat.eqb_eq in Hsp.
      rewrite <- (ascii_nat_embedding c), Hsp. reflexivity.
    + cbn [form_decode].
      pose proof (nat_ascii_bounded c) as Hb.
      rewrite !hex_digit_value
        by (apply Nat.Div0.div_lt_upper_bound || apply Nat.mod_upper_bound; lia).
      cbn -[Nat.div Nat.modulo]. rewrite IH. f_equal.
      pose proof (Nat.div_mod_eq (nat_of_ascii c) 16).
      replace (nat_of_ascii c / 16 * 16 + nat_of_ascii c mod 16)%nat
        with (nat_of_ascii c) by lia.
      apply ascii_nat_embedding.
Qed.

Lemma byte_free_app (x : ascii) (a b : string) :
  byte_free x (a ++ b) = byte_free x a && byte_free x b.
Proof.
  induction a as [|c a IH]; [reflexivity|].
  change (String c a ++ b)%string with (String c (a ++ b)).
  cbn [byte_free]. rewrite IH. apply andb_assoc.
Qed.

Lemma form_encode_byte_free (x : ascii) (s : string) :
  form_unreserved x = false -> x <> "+"%char -> x <> "%"%char ->
  byte_free x (form_encode s) = true.
Proof.
  intros Hx Hp Hpc. induction s as [|c rest IH]; [reflexivity|].
  cbn [form_encode].
  destruct (form_unreserved c) eqn:Hu.
  - cbn [byte_free]. rewrite IH, andb_true_r.
    apply negb_true_iff, Ascii.eqb_neq. intros ->. congruence.
  - destruct (nat_of_ascii c =? 32)%nat.
    + cbn [byte_free]. rewrite IH, andb_true_r.
      apply negb_true_iff, Ascii.eqb_neq. congruence.
    + pose proof (nat_ascii_bounded c) as Hb.
      cbn [byte_free]. rewrite IH, andb_true_r.
      assert (Hd : forall k, (k < 16)%nat -> negb (Ascii.eqb (hex_digit k) x) = true).
      { intros k Hk. apply negb_true_iff, Ascii.eqb_neq. intros Heq.
        pose proof (hex_digit_unreserved k Hk). congruence. }
      rewrite !Hd by (apply Nat.Div0.div_lt_upper_bound || apply Nat.mod_upper_bound; lia).
      rewrite !andb_true_r. apply negb_true_iff, Ascii.eqb_neq. congruence.
Qed.

Lemma split_on_free (sep : ascii) (a : string) :
  byte_free sep a = true -> split_on sep a = [a].
Proof.
  induction a as [|c a IH]; [reflexivity|].
  cbn. intros H. apply andb_prop in H as [Hc Ha]. apply negb_true_iff in Hc.
  rewrite Hc, IH by exact Ha. reflexivity.
Qed.

Lemma split_on_app (sep : ascii) (a b : string) :
  byte_free sep a = true -> split_on sep (a ++ String sep b) = a :: split_on sep b.
Proof.
  induction a as [|c a IH]; intros H.
  - change ("" ++ String sep b)%string with (String sep b).
    cbn [split_on break_at]. rewrite Ascii.eqb_refl. reflexivity.
  - change (String c a ++ String sep b)%string with (String c (a ++ String sep b)).
    cbn [byte_free] in H. cbn [split_on break_at].
    apply andb_prop in H as [Hc Ha]. apply negb_true_iff in Hc.
    rewrite Hc, IH by exact Ha. reflexivity.
Qed.

Lemma split_on_concat (sep : ascii) (l : list string) :
  l <> [] -> Forall (fun a => byte_free sep a = true) l ->
  split_on sep (String.concat (String sep EmptyString) l) = l.
Proof.
  induction l as [|x l IH]; intros Hne Hf; [congruence|].
  inversion Hf as [|? ? Hx Hl]; subst.
  destruct l as [|y l].
  - cbn. now apply split_on_free.
  - change (String.concat (String sep EmptyString) (x :: y :: l))
      with (x ++ String sep (String.concat (String sep EmptyString) (y :: l)))%string.
    rewrite split_on_app by exact Hx. rewrite IH by (discriminate || exact Hl).
    reflexivity.
Qed.

Lemma break_at_app (sep : ascii) (a b : string) :
  byte_free sep a = true -> break_at sep (a ++ String sep b) = (a, Some b).
Proof.
  induction a as [|c a IH]; intros H.
  - change ("" ++ String sep b)%string with (String sep b).
    cbn [split_on break_at]. rewrite Ascii.eqb_refl. reflexivity.
  - change (String c a ++ String sep b)%string with (String c (a ++ String sep b)).
    cbn [byte_free] in H. cbn [split_on break_at].
    apply andb_prop in H as [Hc Ha]. apply negb_true_iff in Hc.
    rewrite Hc, IH by exact Ha. reflexivity.
Qed.

Lemma amp_free (s : string) : byte_free "&"%char (form_encode s) = true.
Proof. apply form_encode_byte_free; [reflexivity | discriminate | discriminate]. Qed.

Lemma eq_free (s : string) : byte_free "="%char (form_encode s) = true.
Proof. apply form_encode_byte_free; [reflexivity | discriminate | discriminate]. Qed.

Lemma qs_parse_pairs (q : URLSearchParams) :
  List.flat_map
    (fun bytes =>
       if String.eqb bytes "" then []
       else
         let '(name, value) :=
           match break_at "="%char bytes with
           | (n, Some v) => (n, v)
           | (n, None) => (n, EmptyString)
           end in
         [(form_decode name, form_decode value)])
    (List.map (fun '(k, v) => form_encode k ++ "=" ++ form_encode v)%string q) = q.
Proof.
  induction q as [|[k v] q IH]; [reflexivity|].
  cbn [List.map List.flat_map].
  change ("=" ++ form_encode v)%string with (String "="%char (form_encode v)).
  rewrite break_at_app by apply eq_free.
  destruct (String.eqb (form_encode k ++ String "=" (form_encode v)) "") eqn:E.
  - apply String.eqb_eq in E. destruct (form_encode k); discriminate.
  - rewrite !form_decode_encode, IH. reflexivity.
Qed.

(** Extra X9: the query string [URLSearchParams.toString] produces reads
    back, under the urlencoded parser a server applies, as exactly the
    pairs it was made from, in order; in particular the search URL of
    [searchMovies] carries exactly the parameters [search_query] lists. *)
Theorem search_url_round_trip (params : MovieSearchParams) :
  (forall q, qs_parse (qs_toString q) = q) /\
  exists s, search_url params = (API_MOVIES ++ "/search?" ++ s)%string /\
            qs_parse s = search_query params.
Proof.
  assert (Hrt : forall q, qs_parse (qs_toString q) = q).
  { intros [|kv q]; [reflexivity|].
    unfold qs_parse, qs_toString.
    rewrite split_on_concat.
    - apply qs_parse_pairs.
    - discriminate.
    - apply List.Forall_forall. intros seg Hin.
      apply in_map_iff in Hin as [[k v] [<- _]].
      rewrite byte_free_app, amp_free. cbn [andb].
      change ("=" ++ form_encode v)%string with (String "="%char (form_encode v)).
      cbn [byte_free]. apply amp_free. }
  split; [exact Hrt|].
  exists (qs_toString (search_query params)). split; [reflexivity | apply Hrt].
Qed.

(** ** Which cached queries the movie mutations invalidate *)

Lemma js_get_prop_index (xs : list json) (i : nat) :
  (i < 3)%nat -> js_get_prop (Some (JArr xs)) (Z_to_string (Z.of_nat i)) = nth_error xs i.
Proof. intros Hi. do 3 (destruct i as [|i]; [reflexivity|]). lia. Qed.

Ltac eval_invalidation :=
  unfold invalidated_by, invalidates; cbn -[js_get_prop Z.of_nat];
  rewrite ?js_get_prop_index by lia; cbn.

(** Extra X10: after creating, updating or deleting a movie, every cached
    movie list query [movieKeys.list(filters)] is invalidated; an update or
    delete of movie [id] also invalidates the detail query of [id] and of
    no other movie, and a create invalidates no detail query. None of them
    invalidates the home screen's [['movies', page]] query, nor the
    by-actor or by-genre movie queries. *)
Theorem movie_mutations_invalidation (id id' page : Z) (filters : string) :
  invalidated_by useCreateMovie_invalidations (movieKeys_list filters) = true /\
  invalidated_by (useUpdateMovie_invalidations id) (movieKeys_list filters) = true /\
  invalidated_by (useDeleteMovie_invalidations id) (movieKeys_list filters) = true /\
  invalidated_by useCreateMovie_invalidations (movieKeys_detail id') = false /\
  invalidated_by (useUpdateMovie_invalidations id) (movieKeys_detail id') = Z.eqb id' id /\
  invalidated_by (useDeleteMovie_invalidations id) (movieKeys_detail id') = Z.eqb id' id /\
  Forall (fun fs =>
            invalidated_by fs (home_queryKey page) = false /\
            invalidated_by fs (movieKeys_actorMovies id') = false /\
            invalidated_by fs (movieKeys_genreMovies id') = false)
         [useCreateMovie_invalidations; useUpdateMovie_invalidations id;
          useDeleteMovie_invalidations id].
Proof.
  split; [eval_invalidation; reflexivity|]. split; [eval_invalidation; reflexivity|].
  split; [eval_invalidation; reflexivity|]. split; [eval_invalidation; reflexivity|].
  split; [eval_invalidation; destruct (Z.eqb id' id); reflexivity|].
  split; [eval_invalidation; destruct (Z.eqb id' id); reflexivity|].
  repeat (constructor; [(split; [|split]); eval_invalidation; reflexivity|]).
  constructor.
Qed.

(** ** What [getPersonDetails] hands back *)

Lemma zparse_object_cons (k : string) (sk : zschema) (rest : list (string * zschema))
    (kvs : list (string * json)) :
  zparse (ZObject ((k, sk) :: rest)) (Some (JObj kvs)) =
  match zparse sk (assoc_get k kvs), zparse (ZObject rest) (Some (JObj kvs)) with
  | Some (Some y), Some (Some (JObj ys)) => Some (Some (JObj ((k, y) :: ys)))
  | Some None, Some (Some (JObj ys)) => Some (Some (JObj ys))
  | _, _ => None
  end.
Proof.
  simpl.
  match goal with |- context [?g rest] => is_fix g; destruct (g rest) end;
    destruct (zparse sk (assoc_get k kvs)) as [[y|]|]; reflexivity.
Qed.

Lemma assoc_get_not_in {A} (k : string) (l : list (string * A)) :
  ~ In k (List.map fst l) -> assoc_get k l = None.
Proof.
  induction l as [|[k' v] l IH]; intros Hn; [reflexivity|].
  cbn in Hn |- *. destruct (String.eqb k k') eqn:E.
  - apply String.eqb_eq in E. subst. tauto.
  - apply IH. tauto.
Qed.

(** An object schema with distinct keys keeps exactly the keys of its
    shape, each holding what the key's schema makes of the input's field. *)
Lemma zparse_object_fields (shape : list (string * zschema)) (kvs : list (string * json))
    (out : json) :
  NoDup (List.map fst shape) ->
  zparse (ZObject shape) (Some (JObj kvs)) = Some (Some out) ->
  exists outs, out = JObj outs /\
    forall k, Some (assoc_get k outs) =
              match assoc_get k shape with
              | Some sk => zparse sk (assoc_get k kvs)
              | None => Some None
              end.
Proof.
  revert out. induction shape as [|[k0 sk0] rest IH]; intros out Hnd H.
  - cbn in H. injection H as <-. exists []. split; [reflexivity | intros k; reflexivity].
  - rewrite zparse_object_cons in H. cbn in Hnd.
    inversion Hnd as [|? ? Hnin Hnd']; subst.
    destruct (zparse sk0 (assoc_get k0 kvs)) as [[y|]|] eqn:E0;
      destruct (zparse (ZObject rest) (Some (JObj kvs))) as [[o|]|] eqn:Er;
      try discriminate; destruct o as [| | | | |ys0]; try discriminate;
      injection H as <-; destruct (IH _ Hnd' eq_refl) as [ys [Hys Hf]];
      injection Hys as Hys; subst ys.
    + exists ((k0, y) :: ys0). split; [reflexivity|]. intros k. cbn.
      destruct (String.eqb k k0) eqn:Ek; [|exact (Hf k)].
      apply String.eqb_eq in Ek. subst k. now rewrite E0.
    + exists ys0. split; [reflexivity|]. intros k. cbn.
      destruct (String.eqb k k0) eqn:Ek; [|exact (Hf k)].
      apply String.eqb_eq in Ek. subst k.
      rewrite E0, (Hf k0), assoc_get_not_in by (rewrite <- list_elem_of_In; exact Hnin).
      reflexivity.
Qed.

Lemma getPersonDetails_outcome (w : world) (r : response) (id : string) :
  w_isConnected w = Some true ->
  (forall c, w_server w c = Some r) ->
  validateStatus (status r) = true ->
  snd (getPersonDetails id w) = parse_outcome PersonSchema (data r).
Proof.
  intros Hconn Hsrv Hok.
  unfold getPersonDetails, catch_, then_, bind, resolve.
  destruct (apiClient_request_ok w r "get" (API_PERSON_DETAILS id) [] None Hconn Hsrv Hok)
    as [c Hc].
  rewrite Hc, schema_parse_outcome. cbn.
  destruct (parse_outcome PersonSchema (data r)); reflexivity.
Qed.

Lemma PersonSchema_keys_NoDup : NoDup (zobject_keys PersonSchema).
Proof. apply (bool_decide_unpack _). vm_compute. exact I. Qed.

(** Extra X11: a person [getPersonDetails] fulfils with is an object
    holding no key outside [PersonSchema]'s (unknown fields of the body are
    dropped), whose [id] and [name] are the body's, whose [isDirector] and
    [isActor] are booleans, [false] when the body lacks them, and whose
    [movies] is an array, empty when the body lacks it. A body whose
    [isActor] is [null] makes the call reject with a [ZodError]. *)
Theorem getPersonDetails_normalizes (w : world) (r : response) (id : string) :
  w_isConnected w = Some true ->
  (forall c, w_server w c = Some r) ->
  validateStatus (status r) = true ->
  (forall out, snd (getPersonDetails id w) = Fulfilled out ->
     exists outs, out = JObj outs /\
       (forall k, ~ In k (zobject_keys PersonSchema) -> assoc_get k outs = None) /\
       (exists n, assoc_get "id" outs = Some (JNum n) /\
                  json_get "id" (data r) = Some (JNum n)) /\
       (exists s, assoc_get "name" outs = Some (JStr s) /\
                  json_get "name" (data r) = Some (JStr s)) /\
       (exists b, assoc_get "isDirector" outs = Some (JBool b) /\
                  (json_get "isDirector" (data r) = None -> b = false)) /\
       (exists b, assoc_get "isActor" outs = Some (JBool b) /\
                  (json_get "isActor" (data r) = None -> b = false)) /\
       (exists ms, assoc_get "movies" outs = Some (JArr ms) /\
                   (json_get "movies" (data r) = None -> ms = []))) /\
  (json_get "isActor" (data r) = Some JNull ->
   snd (getPersonDetails id w) = Rejected (ZodError (data r))).
Proof.
  intros Hconn Hsrv Hok.
  rewrite (getPersonDetails_outcome w r id Hconn Hsrv Hok).
  unfold parse_outcome.
  assert (Hobj : forall v y, zparse PersonSchema (Some v) = Some (Some y) ->
            exists kvs, v = JObj kvs).
  { intros v y Hz. destruct v as [| | | | |kvs]; try discriminate Hz. eauto. }
  split.
  - intros out Hout.
    destruct (zparse PersonSchema (Some (data r))) as [[y|]|] eqn:Hz; try discriminate Hout.
    injection Hout as <-.
    destruct (Hobj _ y Hz) as [kvs Hkvs]. rewrite Hkvs in Hz |- *. cbn [json_get].
    destruct (zparse_object_fields _ kvs y PersonSchema_keys_NoDup Hz) as [outs [-> Hf]].
    exists outs. split; [reflexivity|].
    split; [|split; [|split; [|split; [|split]]]].
    + intros k Hk. specialize (Hf k).
      rewrite (@assoc_get_not_in zschema k) in Hf by exact Hk. congruence.
    + specialize (Hf "id"%string). cbn in Hf.
      destruct (assoc_get "id" kvs) as [[]|]; try discriminate Hf.
      injection Hf as Hf. eauto.
    + specialize (Hf "name"%string). cbn in Hf.
      destruct (assoc_get "name" kvs) as [[]|]; try discriminate Hf.
      injection Hf as Hf. eauto.
    + specialize (Hf "isDirector"%string). cbn in Hf.
      destruct (assoc_get "isDirector" kvs) as [[]|]; try discriminate Hf;
        injection Hf as Hf; eexists; split; [exact Hf | | exact Hf |];
        intros; congruence.
    + specialize (Hf "isActor"%string). cbn in Hf.
      destruct (assoc_get "isActor" kvs) as [[]|]; try discriminate Hf;
        injection Hf as Hf; eexists; split; [exact Hf | | exact Hf |];
        intros; congruence.
    + specialize (Hf "movies"%string). cbn in Hf.
      destruct (assoc_get "movies" kvs) as [[]|]; try discriminate Hf.
      * match type of Hf with Some _ = match ?t with _ => _ end =>
          destruct t; try discriminate Hf end.
        injection Hf as Hf. eexists; split; [exact Hf | discriminate].
      * injection Hf as Hf. eexists; split; [exact Hf | reflexivity].
  - intros Hnull.
    destruct (zparse PersonSchema (Some (data r))) as [[y|]|] eqn:Hz; try reflexivity.
    exfalso. destruct (Hobj _ y Hz) as [kvs Hkvs]. rewrite Hkvs in Hz, Hnull.
    destruct (zparse_object_fields _ kvs y PersonSchema_keys_NoDup Hz) as [outs [_ Hf]].
    specialize (Hf "isActor"%string). cbn [json_get] in Hnull. cbn in Hf.
    rewrite Hnull in Hf. discriminate Hf.
Qed.

Lemma getPersonDetails_normalizes_witness :
  let w := test_world (Some true) ∅ (answer person_response) in
  w_isConnected w = Some true /\
  snd (getPersonDetails "7" w) =
    Fulfilled (JObj [("id", JNum 7); ("name", JStr "Ann"); ("isDirector", JBool false);
                     ("isActor", JBool false); ("movies", JArr [])]) /\
  exists outs,
    JObj [("id", JNum 7); ("name", JStr "Ann"); ("isDirector", JBool false);
          ("isActor", JBool false); ("movies", JArr [])] = JObj outs /\
    assoc_get "extra" outs = None.
Proof.
  cbv zeta. split; [reflexivity|]. split; [vm_compute; reflexivity|].
  destruct (getPersonDetails_normalizes
              (test_world (Some true) ∅ (answer person_response)) person_response "7")
    as [H _]; [reflexivity | intros c; reflexivity | reflexivity |].
  destruct (H _ (eq_refl : snd (getPersonDetails "7"
                (test_world (Some true) ∅ (answer person_response))) = _))
    as [outs [Hout [Hk _]]].
  exists outs. split; [exact Hout|]. apply Hk. vm_compute. intros Hin.
  repeat destruct Hin as [Hin|Hin]; discriminate || exact Hin.
Defined.
